(** * Provider dashboard (src/App.tsx): session, aggregation and enrichment

    A shallow embedding of the data-flow core of [App]: the rehydration
    effect, [handleLogin], [handleLogout], [fetchData] and
    [addTripNamesToItems].  The React state, [localStorage], the network
    and the alert / console sinks are one explicit machine state that the
    handlers thread through a state-and-exception monad. *)

From Stdlib Require Import List String Ascii ZArith Bool Lia DecimalString.
Import ListNotations.
Open Scope string_scope.
Open Scope Z_scope.

Set Warnings "-register-all".

(** ** JavaScript values *)

(** The values the program handles: what [JSON.parse] / [res.json()] can
    return, and [undefined].  A number is modelled by its integer value
    (the REST API hands out integer ids); a string by its code units, all
    below 256 (the username and the password of the form, which [btoa]
    must judge, are kept as [Text] instead).  The properties of an object
    are listed in the order in which [Object.keys] enumerates them. *)
Inductive JSValue : Type :=
| JSUndefined
| JSNull
| JSBool (b : bool)
| JSNum (z : Z)
| JSString (s : string)
| JSArray (elems : list JSValue)
| JSObject (props : list (string * JSValue)).

Module JS.

(** [ToBoolean]: what [if (v)], [!v] and [v || w] test. *)
Definition truthy (v : JSValue) : bool :=
  match v with
  | JSUndefined | JSNull => false
  | JSBool b => b
  | JSNum z => negb (z =? 0)
  | JSString s => negb (String.eqb s "")
  | JSArray _ | JSObject _ => true
  end.

Definition nullish (v : JSValue) : bool :=
  match v with
  | JSUndefined | JSNull => true
  | _ => false
  end.

Definition is_undefined (v : JSValue) : bool :=
  match v with
  | JSUndefined => true
  | _ => false
  end.

(** [a || b] *)
Definition or_else (a b : JSValue) : JSValue :=
  if truthy a then a else b.

(** The name of the array index [n]: ["0"], ["1"], ... *)
Definition index_name (n : nat) : string :=
  NilZero.string_of_uint (Nat.to_uint n).

Definition index_names (len : nat) : list string :=
  map index_name (seq 0 len).

Fixpoint code_units (s : string) : list JSValue :=
  match s with
  | EmptyString => []
  | String c r => JSString (String c EmptyString) :: code_units r
  end.

Fixpoint assoc (k : string) (ps : list (string * JSValue)) : option JSValue :=
  match ps with
  | [] => None
  | (k', v) :: r => if String.eqb k k' then Some v else assoc k r
  end.

(** The own enumerable properties, in enumeration order: those of an
    object, the elements of an array, the code units of a string. *)
Definition own_props (v : JSValue) : list (string * JSValue) :=
  match v with
  | JSObject ps => ps
  | JSArray l => combine (index_names (List.length l)) l
  | JSString s => combine (index_names (String.length s)) (code_units s)
  | _ => []
  end.

(** [Object.keys(v)] for a [v] that is neither [null] nor [undefined]. *)
Definition Object_keys (v : JSValue) : list string :=
  map fst (own_props v).

(** [v.length] of an array or a string. *)
Definition length_of (v : JSValue) : JSValue :=
  match v with
  | JSArray l => JSNum (Z.of_nat (List.length l))
  | JSString s => JSNum (Z.of_nat (String.length s))
  | _ => JSUndefined
  end.

(** [v[k]] for a [v] that is neither [null] nor [undefined].  The
    program reads only names that no prototype defines, apart from
    [length]. *)
Definition get_prop (v : JSValue) (k : string) : JSValue :=
  match assoc k (own_props v) with
  | Some x => x
  | None => if String.eqb k "length" then length_of v else JSUndefined
  end.

(** [v?.k] and [v?.[k]] *)
Definition opt_get (v : JSValue) (k : string) : JSValue :=
  if nullish v then JSUndefined else get_prop v k.

(** The property name a key value converts to: [keys[0]] of an empty
    key list is [undefined], which names the property ["undefined"]. *)
Definition key_name (k : option string) : string :=
  match k with
  | Some s => s
  | None => "undefined"
  end.

(** [a === 0] *)
Definition is_zero (v : JSValue) : bool :=
  match v with
  | JSNum z => z =? 0
  | _ => false
  end.

(** Writing property [k] of an object literal under construction: an
    existing key keeps its place, a new one goes last. *)
Fixpoint set_prop (k : string) (x : JSValue) (ps : list (string * JSValue))
  : list (string * JSValue) :=
  match ps with
  | [] => [(k, x)]
  | (k', y) :: r =>
      if String.eqb k k' then (k', x) :: r else (k', y) :: set_prop k x r
  end.

(** [{ ...item, trip_name: name }] *)
Definition with_trip_name (item name : JSValue) : JSValue :=
  JSObject (set_prop "trip_name" name (own_props item)).

(** What [JSON.parse(JSON.stringify(v))] gives back: a property whose
    value is [undefined] is left out, an [undefined] array element
    becomes [null]. *)
Fixpoint jsonify (v : JSValue) : JSValue :=
  match v with
  | JSArray l =>
      JSArray (map (fun x => if is_undefined x then JSNull else jsonify x) l)
  | JSObject ps =>
      JSObject ((fix props (ps : list (string * JSValue)) :=
                   match ps with
                   | [] => []
                   | (k, x) :: r =>
                       if is_undefined x then props r
                       else (k, jsonify x) :: props r
                   end) ps)
  | _ => v
  end.

End JS.

(** ** [btoa]: base64 of a list of code units below 256 *)

Module Base64.

Definition alphabet : string :=
  "ABCDEFGHIJKLMNOPQRSTUVWXYZabcdefghijklmnopqrstuvwxyz0123456789+/".

Definition digit (n : N) : ascii :=
  match String.get (N.to_nat n) alphabet with
  | Some c => c
  | None => "="%char
  end.

Definition str4 (a b c d : ascii) : string :=
  String a (String b (String c (String d EmptyString))).

Fixpoint encode (l : list N) : string :=
  match l with
  | [] => ""
  | [a] =>
      str4 (digit (N.shiftr a 2))
           (digit (N.shiftl (N.land a 3) 4))
           "="%char "="%char
  | [a; b] =>
      str4 (digit (N.shiftr a 2))
           (digit (N.lor (N.shiftl (N.land a 3) 4) (N.shiftr b 4)))
           (digit (N.shiftl (N.land b 15) 2))
           "="%char
  | a :: b :: c :: r =>
      str4 (digit (N.shiftr a 2))
           (digit (N.lor (N.shiftl (N.land a 3) 4) (N.shiftr b 4)))
           (digit (N.lor (N.shiftl (N.land b 15) 2) (N.shiftr c 6)))
           (digit (N.land c 63))
      ++ encode r
  end%N.

Definition btoa (s : string) : string :=
  encode (map N_of_ascii (list_ascii_of_string s)).

End Base64.

(** The text of a form input: a JavaScript string as the list of its
    UTF-16 code units, of which [btoa] accepts only those up to 255. *)
Definition Text : Type := list N.

(** The text made of the code units of a byte string. *)
Definition text (s : string) : Text :=
  map N_of_ascii (list_ascii_of_string s).

(** The code unit of [:]. *)
Definition colon : N := 58.

Definition latin1 (t : Text) : bool :=
  forallb (fun c => (c <=? 255)%N) t.

(** [!t] of a string [t]. *)
Definition text_empty (t : Text) : bool :=
  match t with
  | [] => true
  | _ => false
  end.

Import JS.

(** ** Exceptions, the network and the persisted text *)

Inductive ExnKind : Type :=
| KError | KTypeError | KSyntaxError | KInvalidCharacterError.

(** A thrown value: every value thrown in the program is an [Error]
    object, of which the program reads [message]. *)
Record Exn : Type := mkExn { kind : ExnKind; message : string }.

(** Reading a property of [null] or [undefined]; the wording of the
    message is the engine's. *)
Definition nullish_access : Exn :=
  mkExn KTypeError "Cannot read properties of null".

(** Calling [items.map] on a value that has no such method; the wording
    is the engine's. *)
Definition not_a_function : Exn :=
  mkExn KTypeError "items.map is not a function".

(** [JSON.parse] of a text that is not JSON; the wording is the engine's. *)
Definition not_json : Exn :=
  mkExn KSyntaxError "Unexpected token".

(** [btoa] of a string with a code unit above 255; the wording is the
    engine's. *)
Definition invalid_character : Exn :=
  mkExn KInvalidCharacterError
        "The string to be encoded contains characters outside of the Latin1 range.".

(** A request is identified by the URL template of the source and the
    values interpolated into the URL and into the [Authorization] header:
    - [GetUsersMe site token]:
      [${site}/wp-json/wp/v2/users/me?context=edit], [Basic ${token}];
    - [GetCollection site c uid token]:
      [${site}/wp-json/wp/v2/${c}?_fields=id,date,title,status,meta&meta_key=_provider_id&meta_value=${uid}];
    - [GetTrip site tripId token]:
      [${site}/wp-json/wp/v2/trip/${tripId}?_fields=title]. *)
Inductive Request : Type :=
| GetUsersMe (site : JSValue) (token : string)
| GetCollection (site : JSValue) (collection : string) (uid token : JSValue)
| GetTrip (site tripId token : JSValue).

(** What [res.json()] settles to. *)
Inductive Body : Type :=
| BodyJSON (v : JSValue)
| BodyInvalid (e : Exn).

Record Response : Type := mkResponse { ok : bool; body : Body }.

(** What the promise returned by [fetch] settles to. *)
Inductive FetchOutcome : Type :=
| Rejected (e : Exn)
| Responded (r : Response).

(** The remote side: the outcome of a request, given how many requests
    were issued before it. *)
Definition Network : Type := nat -> Request -> FetchOutcome.

(** The text held by [localStorage] under ['providerAuth'], represented by
    what [JSON.parse] makes of it: the empty text, a non-empty text that
    is not JSON, or the JSON text of a value. *)
Inductive StoredText : Type :=
| EmptyText
| NotJSON
| JSONText (v : JSValue).

(** ** The machine state *)

(** The [useState] cells of [App]. *)
Record AppState : Type := mkApp {
  isLoggedIn : bool;
  isLoading : bool;
  loginError : string;
  siteUrl : JSValue;
  username : Text;
  appPassword : Text;
  bookings : list JSValue;
  enquiries : list JSValue;
  currentUsername : JSValue;
  userId : JSValue
}.

(** The state on the first render. *)
Definition initial_app : AppState :=
  mkApp false true "" (JSString "https://world.hyrosy.com") [] []
        [] [] (JSString "") JSNull.

(** [ui] is the pending React state; [renders] lists the states that were
    committed whenever a handler suspended at an [await] (state written
    between two suspension points is committed together); the rest is the
    world outside React. *)
Record Machine : Type := mkMachine {
  ui : AppState;
  storage : option StoredText;
  requests : list Request;
  alerts : list string;
  console : list Exn;
  renders : list AppState
}.

Definition initial_machine (stored : option StoredText) : Machine :=
  mkMachine initial_app stored [] [] [] [].

Definition with_ui (f : AppState -> AppState) (m : Machine) : Machine :=
  mkMachine (f (ui m)) (storage m) (requests m) (alerts m) (console m)
            (renders m).

Definition with_storage (t : option StoredText) (m : Machine) : Machine :=
  mkMachine (ui m) t (requests m) (alerts m) (console m) (renders m).

Definition log_request (r : Request) (m : Machine) : Machine :=
  mkMachine (ui m) (storage m) (requests m ++ [r]) (alerts m) (console m)
            (renders m).

Definition log_alert (a : string) (m : Machine) : Machine :=
  mkMachine (ui m) (storage m) (requests m) (alerts m ++ [a]) (console m)
            (renders m).

Definition log_console (e : Exn) (m : Machine) : Machine :=
  mkMachine (ui m) (storage m) (requests m) (alerts m) (console m ++ [e])
            (renders m).

Definition commit (m : Machine) : Machine :=
  mkMachine (ui m) (storage m) (requests m) (alerts m) (console m)
            (renders m ++ [ui m]).

Module Set_.

Definition isLoggedIn (x : bool) (s : AppState) : AppState :=
  let 'mkApp _ b c d e f g h i j := s in mkApp x b c d e f g h i j.
Definition isLoading (x : bool) (s : AppState) : AppState :=
  let 'mkApp a _ c d e f g h i j := s in mkApp a x c d e f g h i j.
Definition loginError (x : string) (s : AppState) : AppState :=
  let 'mkApp a b _ d e f g h i j := s in mkApp a b x d e f g h i j.
Definition siteUrl (x : JSValue) (s : AppState) : AppState :=
  let 'mkApp a b c _ e f g h i j := s in mkApp a b c x e f g h i j.
Definition username (x : Text) (s : AppState) : AppState :=
  let 'mkApp a b c d _ f g h i j := s in mkApp a b c d x f g h i j.
Definition appPassword (x : Text) (s : AppState) : AppState :=
  let 'mkApp a b c d e _ g h i j := s in mkApp a b c d e x g h i j.
Definition bookings (x : list JSValue) (s : AppState) : AppState :=
  let 'mkApp a b c d e f _ h i j := s in mkApp a b c d e f x h i j.
Definition enquiries (x : list JSValue) (s : AppState) : AppState :=
  let 'mkApp a b c d e f g _ i j := s in mkApp a b c d e f g x i j.
Definition currentUsername (x : JSValue) (s : AppState) : AppState :=
  let 'mkApp a b c d e f g h _ j := s in mkApp a b c d e f g h x j.
Definition userId (x : JSValue) (s : AppState) : AppState :=
  let 'mkApp a b c d e f g h i _ := s in mkApp a b c d e f g h i x.

End Set_.

(** ** The monad of handlers: machine state and exceptions *)

Inductive Result (A : Type) : Type :=
| Return (a : A)
| Throw (e : Exn).
Arguments Return {A} a.
Arguments Throw {A} e.

Definition M (A : Type) : Type := Machine -> Result A * Machine.

Definition ret {A} (a : A) : M A := fun m => (Return a, m).

Definition throw {A} (e : Exn) : M A := fun m => (Throw e, m).

Definition bind {A B} (c : M A) (k : A -> M B) : M B :=
  fun m =>
    match c m with
    | (Return a, m') => k a m'
    | (Throw e, m') => (Throw e, m')
    end.

Declare Scope js_scope.
Delimit Scope js_scope with js.
Notation "x <- c ;; k" := (bind c (fun x => k))
  (at level 61, c at next level, right associativity) : js_scope.
Notation "c ;; k" := (bind c (fun _ => k))
  (at level 61, right associativity) : js_scope.
Open Scope js_scope.

(** [try { body } catch (error) { handler error }] *)
Definition try_catch {A} (body : M A) (handler : Exn -> M A) : M A :=
  fun m =>
    match body m with
    | (Return a, m') => (Return a, m')
    | (Throw e, m') => handler e m'
    end.

(** [try { body } finally { final }] *)
Definition finally {A} (body : M A) (final : M unit) : M A :=
  fun m =>
    match body m with
    | (r, m') =>
        match final m' with
        | (Return _, m'') => (r, m'')
        | (Throw e, m'') => (Throw e, m'')
        end
    end.

(** [try { body } catch (e) { /* ignore */ }], where [body] either
    returns from the enclosing function ([Some]) or runs off its end. *)
Definition try_ignore {A} (body : M (option A)) : M (option A) :=
  try_catch body (fun _ => ret None).

(** [v.k]: throws when [v] is [null] or [undefined]. *)
Definition member (v : JSValue) (k : string) : M JSValue :=
  if nullish v then throw nullish_access else ret (get_prop v k).

Definition update (f : AppState -> AppState) : M unit :=
  fun m => (Return tt, with_ui f m).

(** [await c]: the handler suspends until the promise [c] has settled,
    and React commits the state written so far. *)
Definition await {A} (c : M A) : M A :=
  fun m => let (r, m') := c m in (r, commit m').

(** [btoa(t)]: the base64 text of [t], or an [InvalidCharacterError]
    when [t] holds a code unit above 255. *)
Definition btoa (t : Text) : M string :=
  if latin1 t then ret (Base64.encode t) else throw invalid_character.

Definition console_error (e : Exn) : M unit :=
  fun m => (Return tt, log_console e m).

Definition alert (a : string) : M unit :=
  fun m => (Return tt, log_alert a m).

(** ** [localStorage] and [JSON] *)

(** [localStorage.getItem('providerAuth')]: [null] ([None]) or a text. *)
Definition localStorage_getItem : M (option StoredText) :=
  fun m => (Return (storage m), m).

Definition localStorage_setItem (t : StoredText) : M unit :=
  fun m => (Return tt, with_storage (Some t) m).

Definition localStorage_removeItem : M unit :=
  fun m => (Return tt, with_storage None m).

(** [if (storedAuth)] on the result of [getItem]: [null] and the empty
    text are falsy. *)
Definition text_truthy (t : option StoredText) : bool :=
  match t with
  | None | Some EmptyText => false
  | Some _ => true
  end.

(** [JSON.parse(t)]; [getItem]'s [null] is read as the text [null]. *)
Definition JSON_parse (t : option StoredText) : M JSValue :=
  match t with
  | None => ret JSNull
  | Some (JSONText v) => ret v
  | Some EmptyText | Some NotJSON => throw not_json
  end.

(** [JSON.stringify(v)] of an object [v]. *)
Definition JSON_stringify (v : JSValue) : StoredText := JSONText (jsonify v).

(** ** The handlers of [App] *)

Definition Unknown_Trip : JSValue := JSString "Unknown Trip".

(** [Promise.all(list.map(async (x) => f x))]: every callback is started,
    in order; the promise rejects when one of them does. *)
Fixpoint map_async {A B} (f : A -> M B) (l : list A) : M (list B) :=
  match l with
  | [] => ret []
  | x :: r =>
      fun m =>
        let (rx, m1) := f x m in
        let (rr, m2) := map_async f r m1 in
        (match rx, rr with
         | Return y, Return ys => Return (y :: ys)
         | Throw e, _ => Throw e
         | Return _, Throw e => Throw e
         end, m2)
  end.

(** What a [fetch] promise settles to. *)
Definition settle (p : FetchOutcome) : M Response :=
  match p with
  | Responded r => ret r
  | Rejected e => throw e
  end.

(** [res.json()] *)
Definition json (res : Response) : M JSValue :=
  match body res with
  | BodyJSON v => ret v
  | BodyInvalid e => throw e
  end.

(** [Promise.all([p, q])] of two [fetch] promises; when both reject, the
    rejection of the first is reported. *)
Definition Promise_all2 (p q : FetchOutcome) : M (Response * Response) :=
  match p, q with
  | Responded a, Responded b => ret (a, b)
  | Rejected e, _ => throw e
  | Responded _, Rejected e => throw e
  end.

Section Handlers.

Variable net : Network.

(** [fetch(url, { headers })]: the request goes out, and the network
    decides what the returned promise settles to. *)
Definition fetch (r : Request) : M FetchOutcome :=
  fun m => (Return (net (List.length (requests m)) r), log_request r m).

(** The effect run on the first render (lines 29-39). *)
Definition rehydrate : M unit :=
  storedAuth <- localStorage_getItem ;;
  (if text_truthy storedAuth then
     auth <- JSON_parse storedAuth ;;
     v <- member auth "siteUrl" ;; update (Set_.siteUrl v) ;;
     v <- member auth "username" ;; update (Set_.currentUsername v) ;;
     v <- member auth "userId" ;; update (Set_.userId v) ;;
     update (Set_.isLoggedIn true)
   else ret tt) ;;
  update (Set_.isLoading false).

Definition handleLogout : M unit :=
  localStorage_removeItem ;;
  update (Set_.isLoggedIn false) ;;
  update (Set_.username []) ;;
  update (Set_.appPassword []) ;;
  update (Set_.currentUsername (JSString "")) ;;
  update (Set_.userId JSNull) ;;
  update (Set_.bookings []) ;;
  update (Set_.enquiries []).

(** [handleLogin]; [siteUrl], [username] and [appPassword] are the values
    of the render the handler belongs to.  The token is computed before
    the [try]: what [btoa] throws is caught by nobody. *)
Definition handleLogin : M unit :=
  fun m0 =>
  let s := ui m0 in
  (update (Set_.isLoading true) ;;
   update (Set_.loginError "") ;;
   if negb (truthy (siteUrl s)) || text_empty (username s)
      || text_empty (appPassword s)
   then
     update (Set_.loginError "All fields are required.") ;;
     update (Set_.isLoading false)
   else
     token <- btoa (username s ++ colon :: appPassword s)%list ;;
     finally
       (try_catch
          (p <- fetch (GetUsersMe (siteUrl s) token) ;;
           userResponse <- await (settle p) ;;
           if negb (ok userResponse) then
             throw (mkExn KError "Invalid username or application password.")
           else
             userData <- await (json userResponse) ;;
             name <- member userData "name" ;;
             id <- member userData "id" ;;
             let authPayload :=
               JSObject [("username", name); ("userId", id);
                         ("siteUrl", siteUrl s); ("token", JSString token)] in
             localStorage_setItem (JSON_stringify authPayload) ;;
             update (Set_.userId id) ;;
             update (Set_.currentUsername name) ;;
             update (Set_.isLoggedIn true))
          (fun error => update (Set_.loginError (message error))))
       (update (Set_.isLoading false))) m0.

(** The trip lookup of one item (lines 160-168): [Some] when the
    function returns from inside the [try]. *)
Definition lookup_trip (auth token item tripId : JSValue) : M (option JSValue) :=
  try_ignore
    (p <- fetch (GetTrip (get_prop auth "siteUrl") tripId token) ;;
     tripRes <- await (settle p) ;;
     if ok tripRes then
       tripData <- await (json tripRes) ;;
       title <- member tripData "title" ;;
       rendered <- member title "rendered" ;;
       ret (Some (with_trip_name item rendered))
     else ret None).

(** The embedded name of a booking (lines 154-157). *)
Definition embedded_trip (item orderTrips : JSValue) : M (option JSValue) :=
  try_ignore
    (let cartKey := hd_error (Object_keys orderTrips) in
     let title := opt_get (get_prop orderTrips (key_name cartKey)) "title" in
     ret (Some (with_trip_name item (or_else title Unknown_Trip)))).

(** The callback of [items.map] (lines 147-170); [token] is [auth.token],
    read once for the [headers] of every lookup. *)
Definition enhance (auth token : JSValue) (isEnquiry : bool) (item : JSValue)
  : M JSValue :=
  meta <- member item "meta" ;;
  let orderTrips := opt_get (opt_get meta "order_trips") "0" in
  first <-
    (if isEnquiry then
       ret (opt_get (opt_get meta "wp_travel_engine_enquiry_trip_id") "0",
            None)
     else if truthy orderTrips then
       r <- embedded_trip item orderTrips ;; ret (JSNum 0, r)
     else ret (JSNum 0, None)) ;;
  let '(tripId, returned) := first in
  match returned with
  | Some out => ret out
  | None =>
      second <- (if truthy tripId then lookup_trip auth token item tripId
                 else ret None) ;;
      match second with
      | Some out => ret out
      | None => ret (with_trip_name item Unknown_Trip)
      end
  end.

Definition addTripNamesToItems (items auth : JSValue) (isEnquiry : bool)
  : M (list JSValue) :=
  if negb (truthy items) then ret []
  else if is_zero (get_prop items "length") then ret []
  else
    token <- member auth "token" ;;
    match items with
    | JSArray l =>
        enhancedItems <- await (map_async (enhance auth token isEnquiry) l) ;;
        ret enhancedItems
    | _ => throw not_a_function
    end.

Definition fetch_failed_alert : string :=
  "Could not fetch data. Please check your connection and credentials.".

Definition fetchData : M unit :=
  update (Set_.isLoading true) ;;
  text <- localStorage_getItem ;;
  storedAuth <- JSON_parse text ;;
  if negb (truthy storedAuth) then update (Set_.isLoading false)
  else
    finally
      (try_catch
         (let token := get_prop storedAuth "token" in
          let uid := get_prop storedAuth "userId" in
          let site := get_prop storedAuth "siteUrl" in
          p <- fetch (GetCollection site "booking" uid token) ;;
          q <- fetch (GetCollection site "enquiry" uid token) ;;
          both <- await (Promise_all2 p q) ;;
          let '(bookingsRes, enquiriesRes) := both in
          if negb (ok bookingsRes) || negb (ok enquiriesRes) then
            throw (mkExn KError "Failed to fetch data.")
          else
            bookingsData <- await (json bookingsRes) ;;
            enquiriesData <- await (json enquiriesRes) ;;
            enhancedBookings <-
              await (addTripNamesToItems bookingsData storedAuth false) ;;
            enhancedEnquiries <-
              await (addTripNamesToItems enquiriesData storedAuth true) ;;
            update (Set_.bookings enhancedBookings) ;;
            update (Set_.enquiries enhancedEnquiries))
         (fun error =>
            console_error error ;;
            alert fetch_failed_alert ;;
            handleLogout))
      (update (Set_.isLoading false)).

End Handlers.

(** ** Vocabulary of the statements *)

(** A value as [JSON.parse] and [res.json()] produce it: no [undefined]
    anywhere inside. *)
Fixpoint is_JSON (v : JSValue) : bool :=
  match v with
  | JSUndefined => false
  | JSArray l => forallb is_JSON l
  | JSObject ps => forallb (fun p => is_JSON (snd p)) ps
  | _ => true
  end.

Section JSValue_induction.

Variable P : JSValue -> Prop.
Hypothesis Hundefined : P JSUndefined.
Hypothesis Hnull : P JSNull.
Hypothesis Hbool : forall b, P (JSBool b).
Hypothesis Hnum : forall z, P (JSNum z).
Hypothesis Hstring : forall s, P (JSString s).
Hypothesis Harray : forall l, Forall P l -> P (JSArray l).
Hypothesis Hobject :
  forall ps, Forall (fun p => P (snd p)) ps -> P (JSObject ps).

Fixpoint JSValue_nested_ind (v : JSValue) : P v :=
  match v with
  | JSUndefined => Hundefined
  | JSNull => Hnull
  | JSBool b => Hbool b
  | JSNum z => Hnum z
  | JSString s => Hstring s
  | JSArray l =>
      Harray l
        ((fix elems (l : list JSValue) : Forall P l :=
            match l with
            | [] => Forall_nil P
            | x :: r => Forall_cons x (JSValue_nested_ind x) (elems r)
            end) l)
  | JSObject ps =>
      Hobject ps
        ((fix props (ps : list (string * JSValue))
            : Forall (fun p => P (snd p)) ps :=
            match ps with
            | [] => Forall_nil _
            | p :: r =>
                Forall_cons p (JSValue_nested_ind (snd p)) (props r)
            end) ps)
  end.

End JSValue_induction.

(** [quiet m m']: from [m] to [m'] only requests were issued and the
    unchanged React state was committed some number of times. *)
Definition quiet (m m' : Machine) : Prop :=
  ui m' = ui m /\ storage m' = storage m /\ alerts m' = alerts m /\
  console m' = console m /\
  (exists k, renders m' = (renders m ++ repeat (ui m) k)%list) /\
  (exists rs, requests m' = (requests m ++ rs)%list).

Definition Quiet {A} (c : M A) : Prop := forall m, quiet m (snd (c m)).

(** A fetch fails by a transport failure or a non-success status. *)
Definition fetch_failed (o : FetchOutcome) : bool :=
  match o with
  | Rejected _ => true
  | Responded r => negb (ok r)
  end.

(** [item.meta?.order_trips?.[0]] *)
Definition order_trips_of (item : JSValue) : JSValue :=
  opt_get (opt_get (get_prop item "meta") "order_trips") "0".

(** The [title] of the first entry of [orderTrips]. *)
Definition embedded_title (orderTrips : JSValue) : JSValue :=
  opt_get (get_prop orderTrips (key_name (hd_error (Object_keys orderTrips))))
          "title".

(** [item.meta?.wp_travel_engine_enquiry_trip_id] and its first element. *)
Definition enquiry_trip_ids (item : JSValue) : JSValue :=
  opt_get (get_prop item "meta") "wp_travel_engine_enquiry_trip_id".

Definition enquiry_trip_id (item : JSValue) : JSValue :=
  opt_get (enquiry_trip_ids item) "0".

(** [out] is [item] with a trip name written into it. *)
Definition named_copy (item out : JSValue) : Prop :=
  exists name, out = with_trip_name item name.

Definition all_fields_required : string := "All fields are required.".

(** The token [handleLogin] computes from the form. *)
Definition credential_text (s : AppState) : Text :=
  (username s ++ colon :: appPassword s)%list.

Definition credential_token (s : AppState) : string :=
  Base64.encode (credential_text s).

(** The property [k] of a stringified record: left out when its value is
    [undefined]. *)
Definition present (k : string) (v : JSValue) : list (string * JSValue) :=
  if is_undefined v then [] else [(k, v)].

(** The record [handleLogin] persists. *)
Definition session_record (name id : JSValue) (site token : string) : JSValue :=
  JSObject [("username", name); ("userId", id);
            ("siteUrl", JSString site); ("token", JSString token)].

(** The state [rehydrate] reaches from a stored value [v]. *)
Definition rehydrated (v : JSValue) (s : AppState) : AppState :=
  Set_.isLoading false
    (Set_.isLoggedIn true
       (Set_.userId (get_prop v "userId")
          (Set_.currentUsername (get_prop v "username")
             (Set_.siteUrl (get_prop v "siteUrl") s)))).

(** The collection request of a cycle run with the stored session [v]. *)
Definition collection_request (v : JSValue) (c : string) : Request :=
  GetCollection (get_prop v "siteUrl") c (get_prop v "userId")
                (get_prop v "token").

(** The machine once both collection requests are out. *)
Definition cycle_started (v : JSValue) (m : Machine) : Machine :=
  log_request (collection_request v "enquiry")
    (log_request (collection_request v "booking")
       (with_ui (Set_.isLoading true) m)).

(** The [catch] and [finally] blocks of [fetchData], run from [m1]. *)
Definition torn_down (e : Exn) (m1 : Machine) : Machine :=
  with_ui (Set_.isLoading false)
    (snd (handleLogout (log_alert fetch_failed_alert (log_console e m1)))).

(** The last three statements of the [try] block and the [finally]. *)
Definition publish (eb ee : list JSValue) (m3 : Machine) : Machine :=
  with_ui (Set_.isLoading false)
    (with_ui (Set_.enquiries ee) (with_ui (Set_.bookings eb) m3)).

(** The cycle that started in [m] failed: session and results are gone
    and the user was alerted. *)
Definition cleared (m m' : Machine) : Prop :=
  storage m' = None /\
  isLoggedIn (ui m') = false /\
  currentUsername (ui m') = JSString "" /\
  userId (ui m') = JSNull /\
  bookings (ui m') = [] /\
  enquiries (ui m') = [] /\
  alerts m' = (alerts m ++ [fetch_failed_alert])%list.

(** The cycle that started in [m] succeeded: both collections were
    fetched, both were enriched, and [m'] shows both results. *)
Definition published (net : Network) (v : JSValue) (m m' : Machine) : Prop :=
  exists bookingsData enquiriesData enhancedBookings m2 enhancedEnquiries m3,
    net (List.length (requests m)) (collection_request v "booking")
    = Responded (mkResponse true (BodyJSON bookingsData)) /\
    net (S (List.length (requests m))) (collection_request v "enquiry")
    = Responded (mkResponse true (BodyJSON enquiriesData)) /\
    addTripNamesToItems net bookingsData v false
      (commit (commit (commit (cycle_started v m))))
    = (Return enhancedBookings, m2) /\
    addTripNamesToItems net enquiriesData v true (commit m2)
    = (Return enhancedEnquiries, m3) /\
    bookings (ui m') = enhancedBookings /\
    enquiries (ui m') = enhancedEnquiries /\
    storage m' = storage m /\
    alerts m' = alerts m.

(** ** Concrete sessions, items and networks *)

Module Scenario.

Definition site : string := "https://world.hyrosy.com".

Definition auth : JSValue :=
  session_record (JSString "alice") (JSNum 7) site (Base64.btoa "alice:secret").

(** A machine whose store holds the session of alice. *)
Definition resumed : Machine := initial_machine (Some (JSONText auth)).

(** The login form filled in with [user] and [pass]. *)
Definition login_form (user pass : string) : Machine :=
  with_ui (fun s => Set_.appPassword (text pass) (Set_.username (text user) s))
          (initial_machine None).

Definition cart (title : string) : JSValue :=
  JSObject [("cart1", JSObject [("title", JSString title)])].

(** A booking as the code reads it: [order_trips] is a list whose first
    element maps a cart key to the trip. *)
Definition booking_safari : JSValue :=
  JSObject [("id", JSNum 1);
            ("meta", JSObject [("order_trips", JSArray [cart "Safari"])])].

(** A booking that carries a trip id and no [order_trips]. *)
Definition booking_with_trip_id : JSValue :=
  JSObject [("id", JSNum 3);
            ("meta", JSObject
               [("trip_id", JSArray [JSNum 42]);
                ("wp_travel_engine_enquiry_trip_id", JSArray [JSNum 42])])].

Definition enquiry_42 : JSValue :=
  JSObject [("id", JSNum 2);
            ("meta", JSObject
               [("wp_travel_engine_enquiry_trip_id", JSArray [JSNum 42])])].

(** An enquiry that carries both [order_trips] and a trip id. *)
Definition enquiry_with_order_trips : JSValue :=
  JSObject [("id", JSNum 4);
            ("meta", JSObject
               [("order_trips", JSArray [cart "Safari"]);
                ("wp_travel_engine_enquiry_trip_id", JSArray [JSNum 42])])].

Definition enquiry_without_trip : JSValue :=
  JSObject [("id", JSNum 5);
            ("meta", JSObject
               [("wp_travel_engine_enquiry_trip_id", JSArray [JSNum 0])])].

Definition lookup_42 : Request :=
  GetTrip (JSString site) (JSNum 42) (JSString (Base64.btoa "alice:secret")).

(** Every request is answered 200 with the body [{ "title": title }]. *)
Definition net_title (title : JSValue) : Network :=
  fun _ _ => Responded (mkResponse true (BodyJSON (JSObject [("title", title)]))).

Definition rendered (s : string) : JSValue :=
  JSObject [("rendered", JSString s)].

(** Every lookup finds the trip Kilimanjaro. *)
Definition net_kilimanjaro : Network := net_title (rendered "Kilimanjaro").

(** Every lookup is answered with a title that has no [rendered]. *)
Definition net_bare_title : Network := net_title (JSObject []).

(** The booking collection answers with a non-success status, everything
    else with an empty list. *)
Definition net_booking_refused : Network :=
  fun _ r =>
    match r with
    | GetCollection _ c _ _ =>
        if String.eqb c "booking"
        then Responded (mkResponse false (BodyJSON JSNull))
        else Responded (mkResponse true (BodyJSON (JSArray [])))
    | _ => Responded (mkResponse true (BodyJSON (JSArray [])))
    end.

(** The identity endpoint answers [{ id: 7, name: "alice" }]. *)
Definition identity : JSValue :=
  JSObject [("id", JSNum 7); ("name", JSString "alice")].

Definition net_identity : Network :=
  fun _ r =>
    match r with
    | GetUsersMe _ _ => Responded (mkResponse true (BodyJSON identity))
    | _ => Responded (mkResponse true (BodyJSON (JSArray [])))
    end.

End Scenario.

(** ** The rest of [App]: the login effect and the choice of screen *)

Section Effects.

Variable net : Network.

(** The effect that follows [isLoggedIn] (lines 42-46), run after a
    render in which [isLoggedIn] changed.  The promise of [fetchData] is
    dropped, so what [fetchData] throws reaches nobody. *)
Definition effect_isLoggedIn : M unit :=
  fun m =>
    if isLoggedIn (ui m)
    then let (_, m') := fetchData net m in (Return tt, m')
    else (Return tt, m).

(** The statements of the [try] block of [fetchData] between the two
    [fetch] calls and the two setters (lines 117-129): [p] and [q] are the
    promises of the two requests. *)
Definition gather (v : JSValue) (p q : FetchOutcome)
  : M (list JSValue * list JSValue) :=
  both <- await (Promise_all2 p q) ;;
  let '(bookingsRes, enquiriesRes) := both in
  if negb (ok bookingsRes) || negb (ok enquiriesRes) then
    throw (mkExn KError "Failed to fetch data.")
  else
    bookingsData <- await (json bookingsRes) ;;
    enquiriesData <- await (json enquiriesRes) ;;
    enhancedBookings <-
      await (addTripNamesToItems net bookingsData v false) ;;
    enhancedEnquiries <-
      await (addTripNamesToItems net enquiriesData v true) ;;
    ret (enhancedBookings, enhancedEnquiries).

End Effects.

(** The branch of the JSX that [App] returns (lines 175-277), with the
    conditions that shape it; the markup inside a branch is not modelled.
    - [FullLoader]: the early return of line 176;
    - [LoginForm banner disabled]: the login screen, with the error banner
      of line 196 when [loginError] is not empty, and the [disabled] flag
      of the submit button (line 217), which also decides whether the
      button shows a spinner or its label;
    - [DashboardLoader]: the loader of line 226;
    - [DashboardGrid b e]: the two columns; [b] ([e]) tells that the
      bookings (enquiries) column shows its "nothing found" card, as
      [bookings.length === 0] decides. *)
Inductive Screen : Type :=
| FullLoader
| LoginForm (banner : option string) (disabled : bool)
| DashboardLoader
| DashboardGrid (noBookings noEnquiries : bool).

Definition screen (s : AppState) : Screen :=
  if isLoading s && negb (isLoggedIn s) then FullLoader
  else if negb (isLoggedIn s) then
    LoginForm (if String.eqb (loginError s) "" then None
               else Some (loginError s))
              (isLoading s)
  else if isLoading s then DashboardLoader
  else DashboardGrid (Nat.eqb (List.length (bookings s)) 0)
                     (Nat.eqb (List.length (enquiries s)) 0).

(** [{item.trip_name || 'Loading...'}] of a card (lines 249 and 267). *)
Definition trip_label (item : JSValue) : JSValue :=
  or_else (get_prop item "trip_name") (JSString "Loading...").

(** ** Vocabulary of the further statements *)

(** What [fetchData] makes of the outcome of [gather]: the two setters
    and the [finally], or the [catch] and the [finally]. *)
Definition conclude (r : Result (list JSValue * list JSValue) * Machine)
  : Result unit * Machine :=
  match r with
  | (Return (eb, ee), m1) => (Return tt, publish eb ee m1)
  | (Throw e, m1) => (Return tt, torn_down e m1)
  end.

(** The lookup an enquiry item causes. *)
Definition lookup_of (auth token item : JSValue) : Request :=
  GetTrip (get_prop auth "siteUrl") (enquiry_trip_id item) token.

(** The lookups a list of enquiry items causes: one for each item with a
    truthy trip id, in the order of the items. *)
Definition lookups_of (auth token : JSValue) (l : list JSValue) : list Request :=
  map (lookup_of auth token)
      (filter (fun item => truthy (enquiry_trip_id item)) l).

(** The session [handleLogin] leaves untouched. *)
Definition same_session (m m' : Machine) : Prop :=
  storage m' = storage m /\
  isLoggedIn (ui m') = isLoggedIn (ui m) /\
  currentUsername (ui m') = currentUsername (ui m) /\
  userId (ui m') = userId (ui m) /\
  siteUrl (ui m') = siteUrl (ui m) /\
  bookings (ui m') = bookings (ui m) /\
  enquiries (ui m') = enquiries (ui m).

(** A lookup that cannot name the trip: the fetch failed, or it was
    answered 200 with a body that is not JSON, is [null], or has no
    [title]. *)
Definition unusable (o : FetchOutcome) : Prop :=
  fetch_failed o = true \/
  (exists e, o = Responded (mkResponse true (BodyInvalid e))) \/
  (exists d, o = Responded (mkResponse true (BodyJSON d)) /\
             (nullish d = true \/ nullish (get_prop d "title") = true)).

(** The name a booking gets: the title of the first entry of
    [meta.order_trips[0]] when that title is truthy, the fallback
    otherwise. *)
Definition booking_name (item : JSValue) : JSValue :=
  if truthy (order_trips_of item)
  then or_else (embedded_title (order_trips_of item)) Unknown_Trip
  else Unknown_Trip.

Definition named_booking (item : JSValue) : JSValue :=
  with_trip_name item (booking_name item).

(** An enriched item whose card shows its trip name: the name is truthy,
    so the card does not fall back to its placeholder. *)
Definition well_named (out : JSValue) : Prop :=
  truthy (get_prop out "trip_name") = true /\
  trip_label out = get_prop out "trip_name".

Definition invalid_credentials : string :=
  "Invalid username or application password.".

(** The identity request of a login attempt from the form state [s]. *)
Definition identity_request (s : AppState) : Request :=
  GetUsersMe (siteUrl s) (credential_token s).

(** The record [handleLogin] builds from the identity [d] and the form
    state [s], before it is stringified. *)
Definition auth_payload (d : JSValue) (s : AppState) : JSValue :=
  JSObject [("username", get_prop d "name"); ("userId", get_prop d "id");
            ("siteUrl", siteUrl s); ("token", JSString (credential_token s))].

(** The state [handleLogin] shows while its request is out. *)
Definition attempting (s : AppState) : AppState :=
  Set_.loginError "" (Set_.isLoading true s).

(** The form is filled in: the guard of line 54 lets the attempt pass. *)
Definition form_complete (s : AppState) : Prop :=
  truthy (siteUrl s) = true /\ username s <> [] /\ appPassword s <> [].

(** ** Further concrete cases *)

Module Cases.

(** A booking whose first cart entry has no title. *)
Definition booking_untitled : JSValue :=
  JSObject [("id", JSNum 6);
            ("meta", JSObject
               [("order_trips", JSArray [JSObject [("cart1", JSObject [])]])])].

(** A booking for two trips, of which only the second has a title. *)
Definition booking_two_trips : JSValue :=
  JSObject [("id", JSNum 8);
            ("meta", JSObject
               [("order_trips",
                 JSArray [JSObject
                            [("cart1", JSObject []);
                             ("cart2", JSObject [("title", JSString "Safari")])]])])].

(** The identity endpoint answers 200 with [{}]. *)
Definition net_anonymous : Network :=
  fun _ _ => Responded (mkResponse true (BodyJSON (JSObject []))).

(** Every request is rejected. *)
Definition net_down : Network :=
  fun _ _ => Rejected (mkExn KTypeError "Failed to fetch").

(** Every request is answered with a non-success status. *)
Definition net_refusing : Network :=
  fun _ _ => Responded (mkResponse false (BodyJSON JSNull)).

(** The collections hold one booking and two enquiries for trip 42; every
    lookup finds the trip Kilimanjaro. *)
Definition net_dashboard : Network :=
  fun _ r =>
    match r with
    | GetUsersMe _ _ => Responded (mkResponse true (BodyJSON Scenario.identity))
    | GetCollection _ c _ _ =>
        if String.eqb c "booking"
        then Responded (mkResponse true
                          (BodyJSON (JSArray [Scenario.booking_safari])))
        else Responded (mkResponse true
                          (BodyJSON (JSArray [Scenario.enquiry_42;
                                              Scenario.enquiry_42])))
    | GetTrip _ _ _ =>
        Responded (mkResponse true
                     (BodyJSON (JSObject
                                  [("title", Scenario.rendered "Kilimanjaro")])))
    end.

(** The booking collection is answered 200 with an error object instead
    of a list. *)
Definition net_error_object : Network :=
  fun _ r =>
    match r with
    | GetCollection _ _ _ _ =>
        Responded (mkResponse true
                     (BodyJSON (JSObject [("code", JSString "rest_forbidden")])))
    | _ => Responded (mkResponse true (BodyJSON (JSArray [])))
    end.

End Cases.

(** * Properties *)

(** ** [btoa] on known vectors *)

Example btoa_Man : Base64.btoa "Man" = "TWFu".
Proof. reflexivity. Qed.

Example btoa_pad1 : Base64.btoa "Ma" = "TWE=".
Proof. reflexivity. Qed.

Example btoa_pad2 : Base64.btoa "M" = "TQ==".
Proof. reflexivity. Qed.

Example btoa_credentials : Base64.btoa "alice:secret" = "YWxpY2U6c2VjcmV0".
Proof. reflexivity. Qed.

(** ** JSON values *)

Lemma is_JSON_defined v : is_JSON v = true -> is_undefined v = false.
Proof. destruct v; cbn; congruence. Qed.

Lemma jsonify_JSON : forall v, is_JSON v = true -> jsonify v = v.
Proof.
  induction v using JSValue_nested_ind; cbn; intros HJ; try reflexivity.
  - f_equal. induction H as [|x l Hx Hl IH]; cbn in *; [reflexivity|].
    apply andb_prop in HJ as [HJx HJl].
    rewrite (is_JSON_defined x HJx), (Hx HJx), (IH HJl). reflexivity.
  - f_equal. induction H as [|[k x] l Hx Hl IH]; cbn in *; [reflexivity|].
    apply andb_prop in HJ as [HJx HJl].
    rewrite (is_JSON_defined x HJx), (Hx HJx), (IH HJl). reflexivity.
Qed.

Lemma assoc_In k ps x : assoc k ps = Some x -> In (k, x) ps.
Proof.
  induction ps as [|[k' y] r IH]; cbn; [discriminate|].
  destruct (String.eqb_spec k k') as [->|Hne].
  - intros [= ->]. now left.
  - intros H. right. now apply IH.
Qed.

Lemma code_units_JSON s : forallb is_JSON (code_units s) = true.
Proof. induction s; cbn; auto. Qed.

(** A property read off a JSON value is a JSON value, or [undefined]. *)
Lemma get_prop_JSON v k :
  is_JSON v = true ->
  get_prop v k = JSUndefined \/ is_JSON (get_prop v k) = true.
Proof.
  intros HJ. unfold get_prop.
  destruct (assoc k (own_props v)) as [x|] eqn:E.
  - right. apply assoc_In in E.
    destruct v; cbn in *; try contradiction.
    + apply in_combine_r in E.
      pose proof (code_units_JSON s) as Hs.
      rewrite forallb_forall in Hs. now apply Hs.
    + apply in_combine_r in E.
      rewrite forallb_forall in HJ. now apply HJ.
    + rewrite forallb_forall in HJ. apply (HJ (k, x)). assumption.
  - destruct (String.eqb k "length"); [|now left].
    destruct v; cbn; auto.
Qed.

(** ** Computations that leave the application alone *)

Lemma quiet_refl m : quiet m m.
Proof.
  repeat split; try reflexivity.
  - exists 0%nat. cbn. now rewrite app_nil_r.
  - exists []. now rewrite app_nil_r.
Qed.

Lemma quiet_trans m1 m2 m3 : quiet m1 m2 -> quiet m2 m3 -> quiet m1 m3.
Proof.
  intros (U1 & S1 & A1 & C1 & [k1 R1] & [r1 Q1])
         (U2 & S2 & A2 & C2 & [k2 R2] & [r2 Q2]).
  repeat split; try congruence.
  - exists (k1 + k2)%nat.
    rewrite R2, R1, U1, repeat_app, app_assoc. reflexivity.
  - exists (r1 ++ r2)%list. rewrite Q2, Q1, app_assoc. reflexivity.
Qed.

Lemma Quiet_ret {A} (a : A) : Quiet (ret a).
Proof. intros m. apply quiet_refl. Qed.

Lemma Quiet_throw {A} (e : Exn) : Quiet (@throw A e).
Proof. intros m. apply quiet_refl. Qed.

Lemma Quiet_bind {A B} (c : M A) (k : A -> M B) :
  Quiet c -> (forall a, Quiet (k a)) -> Quiet (bind c k).
Proof.
  intros Hc Hk m. unfold bind. specialize (Hc m).
  destruct (c m) as [[a|e] m1]; cbn in *; [|assumption].
  eapply quiet_trans; [exact Hc | apply Hk].
Qed.

Lemma Quiet_try_catch {A} (c : M A) (h : Exn -> M A) :
  Quiet c -> (forall e, Quiet (h e)) -> Quiet (try_catch c h).
Proof.
  intros Hc Hh m. unfold try_catch. specialize (Hc m).
  destruct (c m) as [[a|e] m1]; cbn in *; [assumption|].
  eapply quiet_trans; [exact Hc | apply Hh].
Qed.

Lemma Quiet_await {A} (c : M A) : Quiet c -> Quiet (await c).
Proof.
  intros Hc m. unfold await. specialize (Hc m).
  destruct (c m) as [r m1]; cbn in *.
  eapply quiet_trans; [exact Hc|].
  repeat split; try reflexivity.
  - exists 1%nat. reflexivity.
  - exists []. cbn. now rewrite app_nil_r.
Qed.

Lemma Quiet_fetch net r : Quiet (fetch net r).
Proof.
  intros m. repeat split; try reflexivity.
  - exists 0%nat. cbn. now rewrite app_nil_r.
  - exists [r]. reflexivity.
Qed.

Lemma Quiet_member v k : Quiet (member v k).
Proof. unfold member. destruct (nullish v); [apply Quiet_throw | apply Quiet_ret]. Qed.

Lemma Quiet_settle p : Quiet (settle p).
Proof. destruct p; [apply Quiet_throw | apply Quiet_ret]. Qed.

Lemma Quiet_json r : Quiet (json r).
Proof. unfold json. destruct (body r); [apply Quiet_ret | apply Quiet_throw]. Qed.

Create HintDb quiet.
#[local] Hint Resolve Quiet_ret Quiet_throw Quiet_fetch Quiet_member
  Quiet_settle Quiet_json : quiet.

Ltac quiet_step :=
  first
    [ apply Quiet_bind; [|intros ?]
    | apply Quiet_try_catch; [|intros ?]
    | apply Quiet_await
    | solve [auto with quiet]
    | match goal with
      | |- Quiet (if ?b then _ else _) => destruct b
      | |- Quiet (match ?x with _ => _ end) => destruct x
      | |- Quiet (let '(_, _) := ?x in _) => destruct x
      end ].

Lemma Quiet_lookup_trip net auth token item tripId :
  Quiet (lookup_trip net auth token item tripId).
Proof. unfold lookup_trip, try_ignore. repeat quiet_step. Qed.

Lemma Quiet_embedded_trip item orderTrips :
  Quiet (embedded_trip item orderTrips).
Proof. unfold embedded_trip, try_ignore. repeat quiet_step. Qed.

#[local] Hint Resolve Quiet_lookup_trip Quiet_embedded_trip : quiet.

Lemma Quiet_enhance net auth token isEnquiry item :
  Quiet (enhance net auth token isEnquiry item).
Proof. unfold enhance. repeat quiet_step. Qed.

Lemma Quiet_map_async {A B} (f : A -> M B) (l : list A) :
  (forall x, Quiet (f x)) -> Quiet (map_async f l).
Proof.
  intros Hf. induction l as [|x r IH]; cbn; [apply Quiet_ret|].
  intros m. specialize (Hf x m).
  destruct (f x m) as [rx m1]. specialize (IH m1).
  destruct (map_async f r m1) as [rr m2]. cbn in *.
  eapply quiet_trans; eassumption.
Qed.

Lemma Quiet_addTripNamesToItems net items auth isEnquiry :
  Quiet (addTripNamesToItems net items auth isEnquiry).
Proof.
  unfold addTripNamesToItems.
  destruct (negb (truthy items)); [apply Quiet_ret|].
  destruct (is_zero (get_prop items "length")); [apply Quiet_ret|].
  apply Quiet_bind; [apply Quiet_member|intros token].
  destruct items; try apply Quiet_throw.
  apply Quiet_bind; [|intros; apply Quiet_ret].
  apply Quiet_await, Quiet_map_async. intros x. apply Quiet_enhance.
Qed.

Lemma quiet_commit m : quiet m (commit m).
Proof.
  repeat split; try reflexivity.
  - exists 1%nat. reflexivity.
  - exists []. cbn. now rewrite app_nil_r.
Qed.

(** ** The per-item resolver *)

Lemma enhance_booking net auth token item m :
  nullish item = false ->
  enhance net auth token false item m =
    (Return (with_trip_name item
               (if truthy (order_trips_of item)
                then or_else (embedded_title (order_trips_of item)) Unknown_Trip
                else Unknown_Trip)), m).
Proof.
  intros Hitem. unfold enhance, bind, member. rewrite Hitem. cbn.
  fold (order_trips_of item).
  destruct (truthy (order_trips_of item)); reflexivity.
Qed.

Lemma enhance_enquiry_no_id net auth token item m :
  nullish item = false -> truthy (enquiry_trip_id item) = false ->
  enhance net auth token true item m =
    (Return (with_trip_name item Unknown_Trip), m).
Proof.
  intros Hitem Hid. unfold enhance, bind, member. rewrite Hitem. cbn.
  change (opt_get (opt_get (get_prop item "meta")
                     "wp_travel_engine_enquiry_trip_id") "0")
    with (enquiry_trip_id item).
  rewrite Hid. reflexivity.
Qed.

(** The name an answered lookup yields, if it yields one. *)
Lemma enhance_enquiry_lookup net auth token item m :
  nullish item = false -> truthy (enquiry_trip_id item) = true ->
  let lookup := GetTrip (get_prop auth "siteUrl") (enquiry_trip_id item) token in
  let answer := net (List.length (requests m)) lookup in
  exists name m',
    enhance net auth token true item m = (Return (with_trip_name item name), m')
    /\ requests m' = (requests m ++ [lookup])%list
    /\ (fetch_failed answer = true -> name = Unknown_Trip)
    /\ (forall e, answer = Responded (mkResponse true (BodyInvalid e)) ->
        name = Unknown_Trip)
    /\ (forall d, answer = Responded (mkResponse true (BodyJSON d)) ->
        nullish d = true \/ nullish (get_prop d "title") = true ->
        name = Unknown_Trip)
    /\ (forall d, answer = Responded (mkResponse true (BodyJSON d)) ->
        nullish d = false -> nullish (get_prop d "title") = false ->
        name = get_prop (get_prop d "title") "rendered").
Proof.
  intros Hitem Hid lookup answer.
  unfold enhance, bind, member. rewrite Hitem. cbn.
  change (opt_get (opt_get (get_prop item "meta")
                     "wp_travel_engine_enquiry_trip_id") "0")
    with (enquiry_trip_id item).
  rewrite Hid.
  unfold lookup_trip, try_ignore, try_catch, bind, fetch, await, settle. cbn.
  fold lookup. fold answer.
  destruct answer as [e | [[|] [d | e]]] eqn:Ha; cbn.
  - do 2 eexists; split; [reflexivity|]. cbn.
    repeat split; try reflexivity; intros; discriminate.
  - unfold member.
    destruct (nullish d) eqn:Hd; cbn.
    + do 2 eexists; split; [reflexivity|]. cbn.
      repeat split; try reflexivity; intros; try discriminate.
      congruence.
    + destruct (nullish (get_prop d "title")) eqn:Ht; cbn.
      * do 2 eexists; split; [reflexivity|]. cbn.
        repeat split; try reflexivity; intros; try discriminate.
        match goal with H : Responded _ = Responded _ |- _ =>
          injection H as <- end. congruence.
      * do 2 eexists; split; [reflexivity|]. cbn.
        repeat split; try reflexivity; intros; try discriminate.
        -- match goal with H : Responded _ = Responded _ |- _ =>
             injection H as <- end.
           match goal with H : _ \/ _ |- _ => destruct H; congruence end.
        -- match goal with H : Responded _ = Responded _ |- _ =>
             injection H as <- end. reflexivity.
  - do 2 eexists; split; [reflexivity|]. cbn.
    repeat split; try reflexivity; intros; discriminate.
  - do 2 eexists; split; [reflexivity|]. cbn.
    repeat split; try reflexivity; intros; discriminate.
  - do 2 eexists; split; [reflexivity|]. cbn.
    repeat split; try reflexivity; intros; discriminate.
Qed.

Lemma enhance_returns net auth token isEnquiry item m :
  nullish item = false ->
  exists name m',
    enhance net auth token isEnquiry item m
    = (Return (with_trip_name item name), m').
Proof.
  intros Hitem. destruct isEnquiry.
  - destruct (truthy (enquiry_trip_id item)) eqn:Hid.
    + destruct (enhance_enquiry_lookup net auth token item m Hitem Hid)
        as (name & m' & E & _).
      now exists name, m'.
    + do 2 eexists. now apply enhance_enquiry_no_id.
  - do 2 eexists. now apply enhance_booking.
Qed.

Lemma map_async_enhance net auth token isEnquiry l :
  Forall (fun item => nullish item = false) l ->
  forall m, exists outs m',
    map_async (enhance net auth token isEnquiry) l m = (Return outs, m')
    /\ Forall2 named_copy l outs.
Proof.
  induction 1 as [|item l Hitem Hl IH]; intros m; cbn.
  - exists [], m. split; [reflexivity | constructor].
  - destruct (enhance_returns net auth token isEnquiry item m Hitem)
      as (name & m1 & E1).
    rewrite E1.
    destruct (IH m1) as (outs & m2 & E2 & Hall).
    rewrite E2.
    exists (with_trip_name item name :: outs), m2.
    split; [reflexivity|]. constructor; [now exists name | assumption].
Qed.

Lemma index_name_not_length n : String.eqb "length" (index_name n) = false.
Proof.
  apply String.eqb_neq. unfold index_name.
  destruct (Nat.to_uint n); cbn; discriminate.
Qed.

Lemma assoc_index_names_length (names : list nat) (l : list JSValue) :
  assoc "length" (combine (map index_name names) l) = None.
Proof.
  revert l. induction names as [|n r IH]; intros [|x l]; try reflexivity.
  change (combine (map index_name (n :: r)) (x :: l))
    with ((index_name n, x) :: combine (map index_name r) l).
  unfold assoc; fold assoc.
  rewrite index_name_not_length. apply IH.
Qed.

Lemma array_length l :
  get_prop (JSArray l) "length" = JSNum (Z.of_nat (List.length l)).
Proof.
  unfold get_prop, own_props, index_names.
  rewrite assoc_index_names_length. reflexivity.
Qed.

Lemma assoc_set_prop_same k x ps : assoc k (set_prop k x ps) = Some x.
Proof.
  induction ps as [|[k' y] r IH]; cbn.
  - now rewrite String.eqb_refl.
  - destruct (String.eqb k k') eqn:E; cbn; rewrite E; [reflexivity | exact IH].
Qed.

Lemma assoc_set_prop_other k k' x ps :
  k <> k' -> assoc k (set_prop k' x ps) = assoc k ps.
Proof.
  intros Hne. induction ps as [|[k'' y] r IH]; cbn.
  - apply String.eqb_neq in Hne. now rewrite Hne.
  - destruct (String.eqb_spec k' k'') as [<-|Hk]; cbn.
    + apply String.eqb_neq in Hne. now rewrite Hne.
    + destruct (String.eqb k k''); [reflexivity | exact IH].
Qed.

Lemma with_trip_name_other ps name k :
  k <> "trip_name" ->
  get_prop (with_trip_name (JSObject ps) name) k = get_prop (JSObject ps) k.
Proof.
  intros Hne. unfold get_prop, with_trip_name, own_props.
  now rewrite assoc_set_prop_other.
Qed.

Lemma with_trip_name_name item name :
  get_prop (with_trip_name item name) "trip_name" = name.
Proof.
  unfold get_prop, with_trip_name. cbn [own_props].
  now rewrite assoc_set_prop_same.
Qed.

Lemma addTripNamesToItems_array net l auth isEnquiry m :
  Forall (fun item => nullish item = false) l -> nullish auth = false ->
  exists outs m',
    addTripNamesToItems net (JSArray l) auth isEnquiry m = (Return outs, m')
    /\ Forall2 named_copy l outs.
Proof.
  intros Hl Hauth. unfold addTripNamesToItems. cbn [truthy negb].
  rewrite array_length.
  destruct l as [|item l]; cbn [is_zero List.length].
  - exists [], m. split; [reflexivity | constructor].
  - replace (Z.of_nat (S (List.length l)) =? 0) with false
      by (symmetry; apply Z.eqb_neq; lia).
    unfold bind at 1. unfold member. rewrite Hauth. cbn [ret].
    unfold bind, await.
    destruct (map_async_enhance net auth (get_prop auth "token") isEnquiry
                (item :: l) Hl m) as (outs & m' & E & Hall).
    rewrite E. cbn. exists outs, (commit m'). split; [reflexivity | exact Hall].
Qed.


(** ** The end of an aggregation cycle *)

Lemma torn_down_cleared e m m1 :
  alerts m1 = alerts m -> cleared m (torn_down e m1).
Proof.
  intros Ha. destruct m1 as [[a b c d e' f g h i j] st rq al co re].
  cbn in *. subst al. repeat split.
Qed.

Lemma torn_down_frame e m1 :
  renders (torn_down e m1) = renders m1 /\
  requests (torn_down e m1) = requests m1 /\
  isLoading (ui (torn_down e m1)) = false.
Proof.
  destruct m1 as [[a b c d e' f g h i j] st rq al co re]. repeat split.
Qed.

Lemma quiet_cycle_started_renders v m m1 :
  quiet (cycle_started v m) m1 ->
  exists k,
    renders m1 = (renders m ++ repeat (Set_.isLoading true (ui m)) k)%list.
Proof. intros (_ & _ & _ & _ & [k R] & _). exists k. exact R. Qed.

Lemma failure_outcome e v m m1 :
  quiet (cycle_started v m) m1 ->
  (exists k,
     renders (torn_down e m1)
     = (renders m ++ repeat (Set_.isLoading true (ui m)) k)%list) /\
  isLoading (ui (torn_down e m1)) = false /\
  cleared m (torn_down e m1).
Proof.
  intros Q. destruct (torn_down_frame e m1) as (R & _ & L).
  split; [|split].
  - rewrite R. eapply quiet_cycle_started_renders; eassumption.
  - exact L.
  - apply torn_down_cleared. destruct Q as (_ & _ & A & _). exact A.
Qed.

Lemma publish_outcome eb ee v m m3 :
  quiet (cycle_started v m) m3 ->
  (exists k,
     renders (publish eb ee m3)
     = (renders m ++ repeat (Set_.isLoading true (ui m)) k)%list) /\
  isLoading (ui (publish eb ee m3)) = false /\
  bookings (ui (publish eb ee m3)) = eb /\
  enquiries (ui (publish eb ee m3)) = ee /\
  storage (publish eb ee m3) = storage m /\
  alerts (publish eb ee m3) = alerts m.
Proof.
  intros Q. pose proof (quiet_cycle_started_renders _ _ _ Q) as R.
  destruct Q as (_ & S & A & _).
  destruct m3 as [[a b c d e' f g h i j] st rq al co re]. cbn in *.
  repeat split; assumption.
Qed.


(** ** C1: the order in which the sources of a trip name are tried *)

(** C1, as the code has it: the resolver dispatches on the variant.  For a
    Booking ([isEnquiry = false]), a truthy [meta.order_trips[0]] gives the
    title of its first entry, or the fallback when that title is missing
    or falsy, and the machine is left as it was; without it the name is
    the fallback, again with no request: a Booking never causes a lookup.
    For an Enquiry, [order_trips] is not consulted: a truthy
    [meta.wp_travel_engine_enquiry_trip_id[0]] causes exactly one lookup of
    that trip id, whose [title.rendered] is the name when the lookup
    succeeds, the fallback when the fetch fails; a falsy one gives the
    fallback with no request.  In every case the object returned carries
    the name as its [trip_name]. *)
Theorem enhance_dispatches_on_variant
  (net : Network) (auth token item : JSValue) (m : Machine)
  (Hitem : nullish item = false) :
  let lookup :=
    GetTrip (get_prop auth "siteUrl") (enquiry_trip_id item) token in
  let answer := net (List.length (requests m)) lookup in
  (truthy (order_trips_of item) = true ->
   enhance net auth token false item m =
     (Return (with_trip_name item
                (or_else (embedded_title (order_trips_of item)) Unknown_Trip)),
      m)) /\
  (truthy (order_trips_of item) = false ->
   enhance net auth token false item m =
     (Return (with_trip_name item Unknown_Trip), m)) /\
  (truthy (enquiry_trip_id item) = false ->
   enhance net auth token true item m =
     (Return (with_trip_name item Unknown_Trip), m)) /\
  (truthy (enquiry_trip_id item) = true ->
   exists name m',
     enhance net auth token true item m
     = (Return (with_trip_name item name), m') /\
     requests m' = (requests m ++ [lookup])%list /\
     (fetch_failed answer = true -> name = Unknown_Trip) /\
     (forall d r,
        answer = Responded (mkResponse true (BodyJSON d)) ->
        nullish d = false -> nullish (get_prop d "title") = false ->
        get_prop (get_prop d "title") "rendered" = r -> r <> JSUndefined ->
        name = r)) /\
  (forall name, get_prop (with_trip_name item name) "trip_name" = name).
Proof.
  intros lookup answer.
  split; [|split; [|split; [|split]]]; [| | | | apply with_trip_name_name].
  - intros H. rewrite enhance_booking by assumption. now rewrite H.
  - intros H. rewrite enhance_booking by assumption. now rewrite H.
  - intros H. now apply enhance_enquiry_no_id.
  - intros H.
    destruct (enhance_enquiry_lookup net auth token item m Hitem H)
      as (name & m' & E & R & F & _ & _ & S).
    exists name, m'. repeat split; try assumption.
    intros d r Ha Hd Ht <- _. now apply S.
Qed.

Lemma enhance_dispatches_on_variant_witness :
  enhance Scenario.net_kilimanjaro
          Scenario.auth (get_prop Scenario.auth "token") false
          Scenario.booking_safari Scenario.resumed
  = (Return (with_trip_name Scenario.booking_safari (JSString "Safari")),
     Scenario.resumed)
  /\
  exists name m',
    enhance Scenario.net_kilimanjaro
            Scenario.auth (get_prop Scenario.auth "token") true
            Scenario.enquiry_42 Scenario.resumed
    = (Return (with_trip_name Scenario.enquiry_42 name), m') /\
    requests m' = [Scenario.lookup_42] /\
    name = JSString "Kilimanjaro".
Proof.
  split.
  - destruct (enhance_dispatches_on_variant
                Scenario.net_kilimanjaro
                Scenario.auth (get_prop Scenario.auth "token")
                Scenario.booking_safari Scenario.resumed eq_refl)
      as (B & _).
    apply B. reflexivity.
  - destruct (enhance_dispatches_on_variant
                Scenario.net_kilimanjaro
                Scenario.auth (get_prop Scenario.auth "token")
                Scenario.enquiry_42 Scenario.resumed eq_refl)
      as (_ & _ & _ & L & _).
    destruct (L eq_refl) as (name & m' & E & R & _ & S).
    exists name, m'. split; [exact E|]. split; [exact R|].
    apply (S (JSObject [("title", Scenario.rendered "Kilimanjaro")])
             (JSString "Kilimanjaro"));
      [reflexivity | reflexivity | reflexivity | reflexivity | discriminate].
Defined.

(** C1 does not hold as one priority order for both variants.  An Enquiry
    that carries [order_trips] with the title Safari is not named after
    it: its trip id is looked up and the answer names it.  A Booking that
    carries a trip id and no [order_trips] causes no lookup, although the
    network would have answered, and gets the fallback. *)
Lemma priority_order_counterexample :
  (embedded_title (order_trips_of Scenario.enquiry_with_order_trips)
   = JSString "Safari" /\
   fst (addTripNamesToItems Scenario.net_kilimanjaro
          (JSArray [Scenario.enquiry_with_order_trips]) Scenario.auth true
          Scenario.resumed)
   = Return [with_trip_name Scenario.enquiry_with_order_trips
               (JSString "Kilimanjaro")] /\
   requests (snd (addTripNamesToItems Scenario.net_kilimanjaro
                    (JSArray [Scenario.enquiry_with_order_trips])
                    Scenario.auth true Scenario.resumed))
   = [Scenario.lookup_42]) /\
  (enquiry_trip_id Scenario.booking_with_trip_id = JSNum 42 /\
   fst (addTripNamesToItems Scenario.net_kilimanjaro
          (JSArray [Scenario.booking_with_trip_id]) Scenario.auth false
          Scenario.resumed)
   = Return [with_trip_name Scenario.booking_with_trip_id Unknown_Trip] /\
   requests (snd (addTripNamesToItems Scenario.net_kilimanjaro
                    (JSArray [Scenario.booking_with_trip_id])
                    Scenario.auth false Scenario.resumed))
   = []).
Proof. repeat split. Qed.

(** ** C2: the trip name after enrichment *)

(** C2 fails on the code at an answered lookup whose [title] has no
    [rendered] field: the lookup of trip 42 is answered 200 with
    [{ "title": {} }], nothing is thrown inside the [try], and the enquiry
    comes back with [trip_name: undefined], which is neither a title nor
    ["Unknown Trip"]. *)
Lemma lookup_without_rendered_leaves_name_undefined :
  fst (addTripNamesToItems Scenario.net_bare_title
         (JSArray [Scenario.enquiry_42]) Scenario.auth true Scenario.resumed)
  = Return [with_trip_name Scenario.enquiry_42 JSUndefined] /\
  get_prop (with_trip_name Scenario.enquiry_42 JSUndefined) "trip_name"
  = JSUndefined /\
  requests (snd (addTripNamesToItems Scenario.net_bare_title
                   (JSArray [Scenario.enquiry_42]) Scenario.auth true
                   Scenario.resumed))
  = [Scenario.lookup_42].
Proof. repeat split. Qed.

(** ** C3: a failed collection fetch *)

(** The cycle threw [e] in [m1], which the cycle reached quietly: it ends
    in [torn_down e m1]; what is left to show is what the goal says about
    a failed fetch. *)
Ltac ends_cleared e m1 Q :=
  let R := fresh "R" in
  let L := fresh "L" in
  let C := fresh "C" in
  exists (torn_down e m1);
  split; [reflexivity|];
  destruct (failure_outcome e _ _ m1 Q) as (R & L & C);
  split; [exact R|]; split; [exact L|]; split; [|left; exact C].

(** C3: a cycle that starts with a stored session [v] always ends without
    throwing.  While it runs, the only state committed is the one it
    started from with the loading flag set, so no collection is shown
    before the end.  If the bookings fetch or the enquiries fetch fails
    (rejected, or answered with a non-success status), only the two
    collection requests were issued and the cycle ends cleared: the stored
    session removed, the user logged out, bookings and enquiries empty,
    and the alert raised.  In every case the cycle ends either cleared or
    published, that is with both fetches answered, both collections
    enriched and both results written together. *)
Theorem fetchData_all_or_nothing
  (net : Network) (m : Machine) (v : JSValue)
  (Hstored : storage m = Some (JSONText v)) (Hv : truthy v = true) :
  let p := net (List.length (requests m)) (collection_request v "booking") in
  let q := net (S (List.length (requests m)))
               (collection_request v "enquiry") in
  exists m',
    fetchData net m = (Return tt, m') /\
    (exists k,
       renders m' = (renders m ++ repeat (Set_.isLoading true (ui m)) k)%list) /\
    isLoading (ui m') = false /\
    (fetch_failed p = true \/ fetch_failed q = true ->
     cleared m m' /\
     requests m' = (requests m ++ [collection_request v "booking";
                                   collection_request v "enquiry"])%list) /\
    (cleared m m' \/ published net v m m').
Proof.
  intros p q.
  unfold fetchData.
  unfold bind at 1. cbn [update].
  unfold bind at 1. unfold localStorage_getItem. cbn [storage with_ui].
  rewrite Hstored.
  unfold bind at 1. cbn [JSON_parse ret]. rewrite Hv. cbn [negb].
  unfold finally, try_catch.
  unfold bind at 1. unfold fetch at 1. cbn [requests with_ui log_request].
  fold (collection_request v "booking"). fold p.
  unfold bind at 1. unfold fetch at 1. cbn [requests with_ui log_request].
  rewrite length_app, Nat.add_1_r. cbn [List.length].
  fold (collection_request v "enquiry"). fold q.
  fold (cycle_started v m).
  assert (Q0 : quiet (cycle_started v m) (commit (cycle_started v m)))
    by apply quiet_commit.
  assert (Rq : forall e,
             requests (torn_down e (commit (cycle_started v m)))
             = (requests m ++ [collection_request v "booking";
                               collection_request v "enquiry"])%list).
  { intros e. destruct m as [[a b c d e' f g h i j] st rq al co re]. cbn.
    now rewrite <- app_assoc. }
  unfold bind at 1. unfold await at 1.
  destruct p as [e | r1] eqn:Hp.
  { cbn [Promise_all2 throw].
    ends_cleared e (commit (cycle_started v m)) Q0.
    intros _. split; [assumption | apply Rq]. }
  destruct q as [e | r2] eqn:Hq.
  { cbn [Promise_all2 throw].
    ends_cleared e (commit (cycle_started v m)) Q0.
    intros _. split; [assumption | apply Rq]. }
  cbn [Promise_all2 ret].
  destruct (negb (ok r1) || negb (ok r2)) eqn:Hok.
  { cbn [throw].
    ends_cleared (mkExn KError "Failed to fetch data.")
                 (commit (cycle_started v m)) Q0.
    intros _. split; [assumption | apply Rq]. }
  (* both fetches succeeded *)
  destruct r1 as [[|] b1]; [|discriminate Hok].
  destruct r2 as [[|] b2]; [|discriminate Hok].
  assert (Hfail : fetch_failed (Responded (mkResponse true b1)) = true \/
                  fetch_failed (Responded (mkResponse true b2)) = true ->
                  forall P : Prop, P).
  { intros [H|H]; discriminate H. }
  pose proof (quiet_trans _ _ _ Q0 (quiet_commit _)) as Q1.
  pose proof (quiet_trans _ _ _ Q1 (quiet_commit _)) as Q2.
  unfold bind at 1. unfold await at 1. unfold json at 1. cbn [body].
  destruct b1 as [bookingsData | e]; cbn [ret throw].
  2:{ ends_cleared e (commit (commit (cycle_started v m))) Q1.
      intros H. apply (Hfail H). }
  unfold bind at 1. unfold await at 1. unfold json at 1. cbn [body].
  destruct b2 as [enquiriesData | e]; cbn [ret throw].
  2:{ ends_cleared e (commit (commit (commit (cycle_started v m)))) Q2.
      intros H. apply (Hfail H). }
  (* the bookings are enriched *)
  unfold bind at 1. unfold await at 1.
  pose proof (Quiet_addTripNamesToItems net bookingsData v false
                (commit (commit (commit (cycle_started v m))))) as Q3.
  destruct (addTripNamesToItems net bookingsData v false
              (commit (commit (commit (cycle_started v m)))))
    as [[enhancedBookings | e] m2] eqn:E1; cbn [snd] in Q3.
  all: pose proof (quiet_trans _ _ _ (quiet_trans _ _ _ Q2 Q3)
                     (quiet_commit m2)) as Q4.
  2:{ ends_cleared e (commit m2) Q4. intros H. apply (Hfail H). }
  (* the enquiries are enriched *)
  unfold bind at 1. unfold await at 1.
  pose proof (Quiet_addTripNamesToItems net enquiriesData v true (commit m2))
    as Q5.
  destruct (addTripNamesToItems net enquiriesData v true (commit m2))
    as [[enhancedEnquiries | e] m3] eqn:E2; cbn [snd] in Q5.
  all: pose proof (quiet_trans _ _ _ (quiet_trans _ _ _ Q4 Q5)
                     (quiet_commit m3)) as Q6.
  2:{ ends_cleared e (commit m3) Q6. intros H. apply (Hfail H). }
  (* both results are written *)
  exists (publish enhancedBookings enhancedEnquiries (commit m3)).
  split; [reflexivity|].
  destruct (publish_outcome enhancedBookings enhancedEnquiries v m _ Q6)
    as (R & L & B & En & St & Al).
  split; [exact R|]. split; [exact L|].
  split; [intros H; apply (Hfail H) |].
  right. exists bookingsData, enquiriesData, enhancedBookings, m2,
    enhancedEnquiries, m3.
  repeat split; assumption.
Qed.

Lemma fetchData_all_or_nothing_witness :
  exists m',
    fetchData Scenario.net_booking_refused Scenario.resumed = (Return tt, m') /\
    cleared Scenario.resumed m' /\
    requests m' = [collection_request Scenario.auth "booking";
                   collection_request Scenario.auth "enquiry"].
Proof.
  destruct (fetchData_all_or_nothing Scenario.net_booking_refused
              Scenario.resumed Scenario.auth eq_refl eq_refl)
    as (m' & E & _ & _ & F & _).
  exists m'. split; [exact E|]. apply F. left. reflexivity.
Defined.

(** ** C4: rehydrating the persisted session *)

(** C4, as the code has it: rehydration yields no session, without
    throwing, when nothing or the empty text is stored; a stored JSON
    value other than [null] is taken as the session as it is, its
    [siteUrl], [username] and [userId] read without any check of its
    shape; a stored text that is not JSON makes the effect throw, and so
    does the load at the start of [fetchData], which throws for the empty
    text as well; a stored [null] makes the effect throw on the property
    read, whereas [fetchData] takes [null], like every falsy stored value,
    for no session and returns without a request. *)
Theorem rehydrate_cases (net : Network) (m : Machine) :
  (text_truthy (storage m) = false ->
   rehydrate m = (Return tt, with_ui (Set_.isLoading false) m)) /\
  (forall v, storage m = Some (JSONText v) -> nullish v = false ->
   rehydrate m = (Return tt, with_ui (rehydrated v) m)) /\
  (storage m = Some NotJSON -> rehydrate m = (Throw not_json, m)) /\
  (forall v, storage m = Some (JSONText v) -> nullish v = true ->
   rehydrate m = (Throw nullish_access, m)) /\
  (storage m = Some NotJSON \/ storage m = Some EmptyText ->
   fetchData net m = (Throw not_json, with_ui (Set_.isLoading true) m)) /\
  (forall v, storage m = Some (JSONText v) -> truthy v = false ->
   fetchData net m = (Return tt, with_ui (Set_.isLoading false) m)).
Proof.
  destruct m as [[a b c d e f g h i j] st rq al co re]; cbn.
  repeat split.
  - intros H. unfold rehydrate, bind, localStorage_getItem; cbn.
    rewrite H. reflexivity.
  - intros v -> Hv. unfold rehydrate, bind, localStorage_getItem, member; cbn.
    rewrite Hv. reflexivity.
  - intros ->. reflexivity.
  - intros v -> Hv. unfold rehydrate, bind, localStorage_getItem, member; cbn.
    rewrite Hv. reflexivity.
  - intros [-> | ->]; reflexivity.
  - intros v -> Hv. unfold fetchData, bind, localStorage_getItem; cbn.
    rewrite Hv. reflexivity.
Qed.

Lemma rehydrate_cases_witness :
  rehydrate (initial_machine None)
  = (Return tt, with_ui (Set_.isLoading false) (initial_machine None)) /\
  rehydrate Scenario.resumed
  = (Return tt, with_ui (rehydrated Scenario.auth) Scenario.resumed) /\
  currentUsername (ui (with_ui (rehydrated Scenario.auth) Scenario.resumed))
  = JSString "alice" /\
  rehydrate (initial_machine (Some NotJSON))
  = (Throw not_json, initial_machine (Some NotJSON)) /\
  rehydrate (initial_machine (Some (JSONText JSNull)))
  = (Throw nullish_access, initial_machine (Some (JSONText JSNull))) /\
  fetchData (Scenario.net_title JSNull)
            (initial_machine (Some (JSONText JSNull)))
  = (Return tt, with_ui (Set_.isLoading false)
                        (initial_machine (Some (JSONText JSNull)))).
Proof.
  destruct (rehydrate_cases (Scenario.net_title JSNull) (initial_machine None))
    as (Habsent & _).
  destruct (rehydrate_cases (Scenario.net_title JSNull)
              (initial_machine (Some (JSONText JSNull))))
    as (_ & _ & _ & Hnull & _ & Hquiet).
  destruct (rehydrate_cases (Scenario.net_title JSNull) Scenario.resumed)
    as (_ & Hrecord & _).
  destruct (rehydrate_cases (Scenario.net_title JSNull)
              (initial_machine (Some NotJSON)))
    as (_ & _ & Hgarbled & _).
  split; [|split; [|split; [|split; [|split]]]].
  - apply Habsent. reflexivity.
  - apply Hrecord; reflexivity.
  - reflexivity.
  - apply Hgarbled. reflexivity.
  - apply (Hnull JSNull); reflexivity.
  - apply (Hquiet JSNull); reflexivity.
Defined.

(** C4 does not hold: with a stored text that is not JSON the rehydration
    effect throws instead of yielding no session, and so does the load in
    [fetchData], before any request; and a stored [{}], which is not a
    session record, still logs the user in. *)
Lemma malformed_store_counterexample :
  rehydrate (initial_machine (Some NotJSON))
  = (Throw not_json, initial_machine (Some NotJSON)) /\
  fst (fetchData (Scenario.net_title JSNull) (initial_machine (Some NotJSON)))
  = Throw not_json /\
  fst (rehydrate (initial_machine (Some (JSONText (JSObject []))))) = Return tt
  /\
  isLoggedIn
    (ui (snd (rehydrate (initial_machine (Some (JSONText (JSObject [])))))))
  = true /\
  userId
    (ui (snd (rehydrate (initial_machine (Some (JSONText (JSObject [])))))))
  = JSUndefined.
Proof. repeat split. Qed.

(** ** C5: a login attempt with an empty input *)

(** C5: when the site address, the username or the password is the empty
    string, [handleLogin] returns with the message that all fields are
    required; the request log, the store and the committed states are
    what they were, so the check came before any network call. *)
Theorem handleLogin_missing_input (net : Network) (m : Machine)
  (Hempty : siteUrl (ui m) = JSString "" \/ username (ui m) = []
            \/ appPassword (ui m) = []) :
  exists m',
    handleLogin net m = (Return tt, m') /\
    requests m' = requests m /\
    loginError (ui m') = all_fields_required /\
    isLoading (ui m') = false /\
    isLoggedIn (ui m') = isLoggedIn (ui m) /\
    storage m' = storage m /\
    renders m' = renders m.
Proof.
  destruct m as [[a b c d e f g h i j] st rq al co re]; cbn in Hempty.
  unfold handleLogin; cbn.
  assert (Hguard : negb (truthy d) || text_empty e || text_empty f = true).
  { destruct Hempty as [-> | [-> | ->]]; cbn.
    - reflexivity.
    - rewrite orb_true_r. reflexivity.
    - rewrite orb_true_r. reflexivity. }
  rewrite Hguard. cbn.
  eexists; repeat split.
Qed.

Lemma handleLogin_missing_input_witness :
  exists m',
    handleLogin Scenario.net_identity (Scenario.login_form "" "secret")
    = (Return tt, m') /\
    requests m' = [] /\
    loginError (ui m') = all_fields_required.
Proof.
  destruct (handleLogin_missing_input Scenario.net_identity
              (Scenario.login_form "" "secret")
              (or_intror (or_introl eq_refl)))
    as (m' & E & R & L & _).
  exists m'. repeat split; assumption.
Defined.

(** ** C6: the session of a successful login *)

Lemma eqb_empty_false s : s <> "" -> String.eqb s "" = false.
Proof. intros H. now apply String.eqb_neq. Qed.

Lemma text_empty_false (t : Text) : t <> [] -> text_empty t = false.
Proof. destruct t; [congruence | reflexivity]. Qed.

(** C6, as the code has it: with a non-empty site address, username and
    password whose code units [btoa] accepts, and an identity request
    answered 200 with a JSON value [userData] that is not [null],
    [handleLogin] returns logged in; the actor name and id of the state
    are [userData.name] and [userData.id], whatever username was typed,
    and [undefined] when the answer lacks them; the record persisted is
    the stringified session built from these two, the site address and
    the token: it always holds the site address and the token, and holds
    the actor name and the actor id exactly when the answer carries them;
    so it holds all four fields when the answer carries both. *)
Theorem handleLogin_session_from_server
  (net : Network) (m : Machine) (site : string) (userData : JSValue)
  (Hsite : siteUrl (ui m) = JSString site) (Hsite_ne : site <> "")
  (Huser : username (ui m) <> []) (Hpass : appPassword (ui m) <> [])
  (Hlatin : latin1 (credential_text (ui m)) = true)
  (Hnet : net (List.length (requests m))
              (GetUsersMe (JSString site) (credential_token (ui m)))
          = Responded (mkResponse true (BodyJSON userData)))
  (Hjson : is_JSON userData = true) (Hdata : nullish userData = false) :
  let name := get_prop userData "name" in
  let id := get_prop userData "id" in
  exists m',
    handleLogin net m = (Return tt, m') /\
    currentUsername (ui m') = name /\
    userId (ui m') = id /\
    isLoggedIn (ui m') = true /\
    loginError (ui m') = "" /\
    storage m' =
      Some (JSON_stringify
              (session_record name id site (credential_token (ui m)))) /\
    storage m' =
      Some (JSONText
              (JSObject (present "username" name ++ present "userId" id ++
                         [("siteUrl", JSString site);
                          ("token", JSString (credential_token (ui m)))]))) /\
    (name <> JSUndefined -> id <> JSUndefined ->
     storage m' =
       Some (JSONText
               (session_record name id site (credential_token (ui m))))) /\
    requests m' =
      (requests m ++ [GetUsersMe (JSString site) (credential_token (ui m))])%list.
Proof.
  intros name id.
  assert (Hstored :
            jsonify (session_record name id site (credential_token (ui m)))
            = JSObject (present "username" name ++ present "userId" id ++
                        [("siteUrl", JSString site);
                         ("token", JSString (credential_token (ui m)))])).
  { unfold session_record, present.
    generalize (credential_token (ui m)) as token. intros token.
    destruct (get_prop_JSON userData "name" Hjson) as [E | E];
      destruct (get_prop_JSON userData "id" Hjson) as [E' | E'];
      fold name in E; fold id in E'; cbn;
      rewrite ?E, ?E'; cbn;
      rewrite ?(is_JSON_defined _ E), ?(is_JSON_defined _ E');
      rewrite ?(jsonify_JSON _ E), ?(jsonify_JSON _ E'); reflexivity. }
  assert (Hfull : name <> JSUndefined -> id <> JSUndefined ->
                  jsonify (session_record name id site
                             (credential_token (ui m)))
                  = session_record name id site (credential_token (ui m))).
  { intros Hn Hi. rewrite Hstored. unfold present, session_record.
    destruct name; try congruence; destruct id; try congruence; reflexivity. }
  revert Hstored Hfull Hnet Hlatin.
  unfold credential_token, credential_text.
  destruct m as [[a b c d e f g h i j] st rq al co re].
  cbn [ui siteUrl username appPassword requests] in *.
  intros Hstored Hfull Hnet Hlatin. subst d.
  unfold handleLogin.
  cbn -[btoa latin1 colon Base64.encode jsonify session_record].
  rewrite (eqb_empty_false _ Hsite_ne), (text_empty_false _ Huser),
    (text_empty_false _ Hpass).
  cbn -[btoa latin1 colon Base64.encode jsonify session_record].
  unfold bind at 1, btoa. rewrite Hlatin. cbn [ret].
  unfold finally, try_catch, bind, fetch, await, settle.
  cbn -[latin1 colon Base64.encode jsonify session_record].
  rewrite Hnet.
  cbn -[latin1 colon Base64.encode jsonify session_record].
  unfold member. rewrite Hdata.
  cbn -[latin1 colon Base64.encode jsonify session_record].
  fold name id.
  eexists; split; [reflexivity|].
  cbn -[latin1 colon Base64.encode jsonify session_record].
  unfold JSON_stringify.
  change (JSObject [("username", name); ("userId", id);
                    ("siteUrl", JSString site);
                    ("token", JSString (Base64.encode (e ++ colon :: f)%list))])
    with (session_record name id site (Base64.encode (e ++ colon :: f)%list)).
  repeat split.
  - now rewrite Hstored.
  - intros Hn Hi. now rewrite (Hfull Hn Hi).
Qed.

Lemma handleLogin_session_from_server_witness :
  exists m',
    handleLogin Scenario.net_identity (Scenario.login_form "Alice S." "secret")
    = (Return tt, m') /\
    currentUsername (ui m') = JSString "alice" /\
    userId (ui m') = JSNum 7 /\
    storage m' =
      Some (JSONText (session_record (JSString "alice") (JSNum 7)
                        Scenario.site (Base64.btoa "Alice S.:secret"))).
Proof.
  destruct (handleLogin_session_from_server Scenario.net_identity
              (Scenario.login_form "Alice S." "secret") Scenario.site
              Scenario.identity eq_refl
              ltac:(discriminate) ltac:(discriminate) ltac:(discriminate)
              eq_refl eq_refl eq_refl eq_refl)
    as (m' & E & N & I & _ & _ & _ & _ & S & _).
  exists m'. split; [exact E|]. split; [exact N|]. split; [exact I|].
  apply S; discriminate.
Defined.

(** C6 does not hold where the identity answer lacks [name] or [id]: an
    answer 200 with [{}] still logs the user in, with an [undefined]
    actor, and the record persisted holds the site address and the token
    only. *)
Lemma partial_session_counterexample :
  fst (handleLogin Cases.net_anonymous (Scenario.login_form "alice" "secret"))
  = Return tt /\
  isLoggedIn (ui (snd (handleLogin Cases.net_anonymous
                         (Scenario.login_form "alice" "secret")))) = true /\
  currentUsername (ui (snd (handleLogin Cases.net_anonymous
                              (Scenario.login_form "alice" "secret"))))
  = JSUndefined /\
  userId (ui (snd (handleLogin Cases.net_anonymous
                     (Scenario.login_form "alice" "secret"))))
  = JSUndefined /\
  storage (snd (handleLogin Cases.net_anonymous
                  (Scenario.login_form "alice" "secret")))
  = Some (JSONText
            (JSObject [("siteUrl", JSString Scenario.site);
                       ("token", JSString (Base64.btoa "alice:secret"))])).
Proof. repeat split. Qed.

(** ** C7: what enrichment does to a list of items *)

(** C7: for a list of items that are objects and a session [auth],
    enrichment returns a list of the same length; the item at each
    position of the output is the item at that position of the input with
    [trip_name] written, every other property reading as before; the
    React state and the store are untouched. *)
Theorem addTripNamesToItems_preserves_items
  (net : Network) (l : list JSValue) (auth : JSValue) (isEnquiry : bool)
  (m : Machine)
  (Hitems : Forall (fun item => exists ps, item = JSObject ps) l)
  (Hauth : nullish auth = false) :
  exists outs m',
    addTripNamesToItems net (JSArray l) auth isEnquiry m = (Return outs, m')
    /\ List.length outs = List.length l
    /\ (forall i item, nth_error l i = Some item ->
        exists out name,
          nth_error outs i = Some out
          /\ out = with_trip_name item name
          /\ get_prop out "trip_name" = name
          /\ forall k, k <> "trip_name" -> get_prop out k = get_prop item k)
    /\ ui m' = ui m /\ storage m' = storage m.
Proof.
  assert (Hl : Forall (fun item => nullish item = false) l).
  { eapply Forall_impl; [|exact Hitems]. intros item [ps ->]. reflexivity. }
  destruct (addTripNamesToItems_array net l auth isEnquiry m Hl Hauth)
    as (outs & m' & E & Hall).
  exists outs, m'. split; [exact E|]. split; [|split].
  - symmetry. eapply Forall2_length. exact Hall.
  - clear E. revert Hitems. induction Hall as [|item out l outs Hc Hall IH];
      intros Hitems i it Hi.
    + destruct i; discriminate.
    + destruct i as [|i]; cbn in Hi.
      * injection Hi as <-. destruct Hc as [name ->].
        exists (with_trip_name item name), name.
        split; [reflexivity|]. split; [reflexivity|].
        split; [apply with_trip_name_name|].
        inversion Hitems as [|? ? [ps ->] _]; subst.
        intros k Hk. now apply with_trip_name_other.
      * inversion Hitems; subst.
        apply IH; [|assumption|assumption].
        eapply Forall_impl; [|eassumption]. intros ? [ps ->]. reflexivity.
  - pose proof (Quiet_addTripNamesToItems net (JSArray l) auth isEnquiry m) as Q.
    rewrite E in Q. cbn in Q. destruct Q as (U & S & _). now split.
Qed.

Lemma addTripNamesToItems_preserves_items_witness :
  exists outs m',
    addTripNamesToItems Scenario.net_kilimanjaro
      (JSArray [Scenario.enquiry_42; Scenario.enquiry_without_trip])
      Scenario.auth true Scenario.resumed
    = (Return outs, m') /\
    List.length outs = 2%nat /\
    exists out name,
      nth_error outs 1 = Some out /\
      out = with_trip_name Scenario.enquiry_without_trip name /\
      get_prop out "id" = JSNum 5.
Proof.
  destruct (addTripNamesToItems_preserves_items
              Scenario.net_kilimanjaro
              [Scenario.enquiry_42; Scenario.enquiry_without_trip]
              Scenario.auth true Scenario.resumed)
    as (outs & m' & E & L & N & _).
  - repeat constructor; eexists; reflexivity.
  - reflexivity.
  - exists outs, m'. split; [exact E|]. split; [exact L|].
    destruct (N 1%nat Scenario.enquiry_without_trip eq_refl)
      as (out & name & Hout & Hname & _ & Hother).
    exists out, name. split; [exact Hout|]. split; [exact Hname|].
    rewrite Hother by discriminate. reflexivity.
Defined.

(** ** C8: logging out twice *)

(** C8: [handleLogout] never throws, and running it a second time leaves
    the machine exactly as the first run left it: no stored session,
    logged out, no actor, no bookings and no enquiries. *)
Theorem handleLogout_idempotent (m : Machine) :
  let once := snd (handleLogout m) in
  let twice := snd (handleLogout once) in
  fst (handleLogout m) = Return tt /\
  fst (handleLogout once) = Return tt /\
  twice = once /\
  storage once = None /\
  isLoggedIn (ui once) = false /\
  currentUsername (ui once) = JSString "" /\
  userId (ui once) = JSNull /\
  bookings (ui once) = [] /\
  enquiries (ui once) = [].
Proof.
  destruct m as [[a b c d e f g h i j] st rq al co re]; cbn.
  repeat split.
Qed.


(** ** C9: an enquiry without a usable trip id *)

(** C9: for an Enquiry item whose [wp_travel_engine_enquiry_trip_id] is
    absent ([undefined] or [null]), empty (an empty list or an empty
    string) or starts with the number 0, the resolver returns the item
    with its [trip_name] set to ["Unknown Trip"] and leaves the machine as
    it was: no request is issued. *)
Theorem enquiry_without_trip_id
  (net : Network) (auth token item : JSValue) (m : Machine)
  (Hitem : nullish item = false)
  (Hid : nullish (enquiry_trip_ids item) = true \/
         enquiry_trip_ids item = JSArray [] \/
         enquiry_trip_ids item = JSString "" \/
         exists rest, enquiry_trip_ids item = JSArray (JSNum 0 :: rest)) :
  exists out,
    enhance net auth token true item m = (Return out, m) /\
    get_prop out "trip_name" = Unknown_Trip /\
    out = with_trip_name item Unknown_Trip /\
    requests (snd (enhance net auth token true item m)) = requests m.
Proof.
  assert (H : truthy (enquiry_trip_id item) = false).
  { unfold enquiry_trip_id, opt_get at 1.
    destruct Hid as [-> | [-> | [-> | [rest ->]]]]; reflexivity. }
  rewrite (enhance_enquiry_no_id net auth token item m Hitem H).
  exists (with_trip_name item Unknown_Trip).
  split; [reflexivity|]. split; [apply with_trip_name_name|].
  split; reflexivity.
Qed.

Lemma enquiry_without_trip_id_witness :
  exists out,
    enhance Scenario.net_kilimanjaro
            Scenario.auth (get_prop Scenario.auth "token") true
            Scenario.enquiry_without_trip Scenario.resumed
    = (Return out, Scenario.resumed) /\
    get_prop out "trip_name" = JSString "Unknown Trip" /\
    get_prop out "id" = JSNum 5.
Proof.
  destruct (enquiry_without_trip_id
              Scenario.net_kilimanjaro
              Scenario.auth (get_prop Scenario.auth "token")
              Scenario.enquiry_without_trip Scenario.resumed eq_refl)
    as (out & E & N & O & _).
  - right; right; right. exists []. reflexivity.
  - exists out. split; [exact E|]. split; [exact N|].
    rewrite O. reflexivity.
Defined.

(** ** C10: a cycle without a stored session *)

(** C10: when nothing is stored under the session key, [fetchData]
    returns at once: the machine it leaves differs from the one it found
    in the loading flag at most, which is off; in particular no request
    was issued and bookings and enquiries are what they were. *)
Theorem fetchData_without_session (net : Network) (m : Machine)
  (Hnone : storage m = None) :
  fetchData net m = (Return tt, with_ui (Set_.isLoading false) m) /\
  requests (snd (fetchData net m)) = requests m /\
  bookings (ui (snd (fetchData net m))) = bookings (ui m) /\
  enquiries (ui (snd (fetchData net m))) = enquiries (ui m).
Proof.
  destruct m as [[a b c d e f g h i j] st rq al co re]; cbn in *; subst st.
  cbn. repeat split.
Qed.

Lemma fetchData_without_session_witness :
  fetchData Scenario.net_identity (initial_machine None)
  = (Return tt, with_ui (Set_.isLoading false) (initial_machine None)) /\
  requests (snd (fetchData Scenario.net_identity (initial_machine None))) = [].
Proof.
  destruct (fetchData_without_session Scenario.net_identity
              (initial_machine None) eq_refl)
    as (E & R & _).
  split; [exact E | exact R].
Defined.

(** * Further properties *)

(** ** [fetchData] through [gather] *)

Lemma fetchData_gather net m v :
  storage m = Some (JSONText v) -> truthy v = true ->
  fetchData net m =
    conclude
      (gather net v
         (net (List.length (requests m)) (collection_request v "booking"))
         (net (S (List.length (requests m))) (collection_request v "enquiry"))
         (cycle_started v m)).
Proof.
  intros Hstored Hv.
  unfold fetchData.
  unfold bind at 1. cbn [update].
  unfold bind at 1. unfold localStorage_getItem. cbn [storage with_ui].
  rewrite Hstored.
  unfold bind at 1. cbn [JSON_parse ret]. rewrite Hv. cbn [negb].
  unfold finally, try_catch.
  unfold bind at 1. unfold fetch at 1. cbn [requests with_ui log_request].
  fold (collection_request v "booking").
  unfold bind at 1. unfold fetch at 1. cbn [requests with_ui log_request].
  rewrite length_app, Nat.add_1_r. cbn [List.length].
  fold (collection_request v "enquiry").
  fold (cycle_started v m).
  generalize (cycle_started v m) as m0.
  generalize (net (List.length (requests m)) (collection_request v "booking"))
    as p.
  generalize (net (S (List.length (requests m)))
                  (collection_request v "enquiry")) as q.
  intros q p m0. unfold gather, bind, await.
  destruct (Promise_all2 p q m0) as [[[r1 r2] | e] m1]; cbv beta iota;
    [|reflexivity].
  destruct (negb (ok r1) || negb (ok r2)); [reflexivity|].
  destruct (json r1 (commit m1)) as [[bd | e] m2]; cbv beta iota;
    [|reflexivity].
  destruct (json r2 (commit m2)) as [[ed | e] m3]; cbv beta iota;
    [|reflexivity].
  destruct (addTripNamesToItems net bd v false (commit m3))
    as [[eb | e] m4]; cbv beta iota; [|reflexivity].
  destruct (addTripNamesToItems net ed v true (commit m4))
    as [[ee | e] m5]; reflexivity.
Qed.

Lemma Quiet_Promise_all2 p q : Quiet (Promise_all2 p q).
Proof. destruct p, q; cbn; auto with quiet. Qed.

Lemma Quiet_gather net v p q : Quiet (gather net v p q).
Proof.
  unfold gather.
  apply Quiet_bind; [apply Quiet_await, Quiet_Promise_all2 | intros [r1 r2]].
  destruct (negb (ok r1) || negb (ok r2)); [apply Quiet_throw|].
  apply Quiet_bind; [apply Quiet_await, Quiet_json | intros bd].
  apply Quiet_bind; [apply Quiet_await, Quiet_json | intros ed].
  apply Quiet_bind;
    [apply Quiet_await, Quiet_addTripNamesToItems | intros eb].
  apply Quiet_bind;
    [apply Quiet_await, Quiet_addTripNamesToItems | intros ee].
  apply Quiet_ret.
Qed.

(** ** The requests of an enrichment *)

Lemma enhance_booking_machine net auth token item m :
  snd (enhance net auth token false item m) = m.
Proof.
  destruct (nullish item) eqn:Hitem.
  - unfold enhance, bind, member. rewrite Hitem. reflexivity.
  - now rewrite enhance_booking.
Qed.

Lemma map_async_machine {A B} (f : A -> M B) (l : list A) :
  (forall x m, snd (f x m) = m) -> forall m, snd (map_async f l m) = m.
Proof.
  intros Hf. induction l as [|x r IH]; intros m; cbn; [reflexivity|].
  specialize (Hf x m). destruct (f x m) as [rx m1]. cbn in Hf. subst m1.
  specialize (IH m). destruct (map_async f r m) as [rr m2]. exact IH.
Qed.

Lemma enquiry_trip_id_nullish item :
  nullish item = true -> truthy (enquiry_trip_id item) = false.
Proof. destruct item; cbn; congruence. Qed.

Lemma enhance_enquiry_requests net auth token item m :
  requests (snd (enhance net auth token true item m))
  = (requests m ++ lookups_of auth token [item])%list.
Proof.
  unfold lookups_of. cbn [filter].
  destruct (nullish item) eqn:Hitem.
  - rewrite (enquiry_trip_id_nullish item Hitem). cbn [map].
    unfold enhance, bind, member. rewrite Hitem. cbn.
    now rewrite app_nil_r.
  - destruct (truthy (enquiry_trip_id item)) eqn:Hid; cbn [map].
    + destruct (enhance_enquiry_lookup net auth token item m Hitem Hid)
        as (name & m' & E & R & _).
      rewrite E. exact R.
    + rewrite (enhance_enquiry_no_id net auth token item m Hitem Hid).
      cbn. now rewrite app_nil_r.
Qed.

Lemma lookups_of_cons auth token item l :
  lookups_of auth token (item :: l)
  = (lookups_of auth token [item] ++ lookups_of auth token l)%list.
Proof.
  unfold lookups_of. cbn [filter].
  destruct (truthy (enquiry_trip_id item)); reflexivity.
Qed.

Lemma map_async_enquiry_requests net auth token l :
  forall m,
    requests (snd (map_async (enhance net auth token true) l m))
    = (requests m ++ lookups_of auth token l)%list.
Proof.
  induction l as [|item l IH]; intros m.
  - cbn. now rewrite app_nil_r.
  - cbn [map_async].
    pose proof (enhance_enquiry_requests net auth token item m) as H1.
    destruct (enhance net auth token true item m) as [rx m1]. cbn [snd] in H1.
    specialize (IH m1).
    destruct (map_async (enhance net auth token true) l m1) as [rr m2].
    cbn [snd] in *.
    rewrite IH, H1, (lookups_of_cons auth token item l), app_assoc.
    reflexivity.
Qed.

Lemma addTripNamesToItems_booking_requests net items auth m :
  requests (snd (addTripNamesToItems net items auth false m)) = requests m.
Proof.
  unfold addTripNamesToItems.
  destruct (negb (truthy items)); [reflexivity|].
  destruct (is_zero (get_prop items "length")); [reflexivity|].
  unfold bind at 1, member.
  destruct (nullish auth); [reflexivity|]. cbn [ret].
  destruct items; try reflexivity.
  unfold bind, await.
  pose proof (map_async_machine
                (enhance net auth (get_prop auth "token") false) elems
                (enhance_booking_machine net auth (get_prop auth "token")) m)
    as Hm.
  destruct (map_async (enhance net auth (get_prop auth "token") false) elems m)
    as [[outs | e] m1]; cbn [snd] in Hm; subst m1; reflexivity.
Qed.

Lemma addTripNamesToItems_enquiry_requests net l auth m :
  nullish auth = false ->
  requests (snd (addTripNamesToItems net (JSArray l) auth true m))
  = (requests m ++ lookups_of auth (get_prop auth "token") l)%list.
Proof.
  intros Hauth.
  unfold addTripNamesToItems. cbn [truthy negb].
  rewrite array_length.
  destruct l as [|item l].
  - cbn. now rewrite app_nil_r.
  - cbn [is_zero List.length].
    replace (Z.of_nat (S (List.length l)) =? 0) with false
      by (symmetry; apply Z.eqb_neq; lia).
    unfold bind at 1, member. rewrite Hauth. cbn [ret].
    unfold bind, await.
    pose proof (map_async_enquiry_requests net auth (get_prop auth "token")
                  (item :: l) m) as H.
    destruct (map_async (enhance net auth (get_prop auth "token") true)
                (item :: l) m) as [[outs | e] m1]; exact H.
Qed.

(** X1: enriching bookings never touches the network: whatever [items]
    and [auth] are, and whether the enrichment returns or throws, the
    request log, the React state and the store are what they were. *)
Theorem bookings_cause_no_request
  (net : Network) (items auth : JSValue) (m : Machine) :
  requests (snd (addTripNamesToItems net items auth false m)) = requests m /\
  ui (snd (addTripNamesToItems net items auth false m)) = ui m /\
  storage (snd (addTripNamesToItems net items auth false m)) = storage m.
Proof.
  pose proof (Quiet_addTripNamesToItems net items auth false m)
    as (U & S & _).
  split; [apply addTripNamesToItems_booking_requests | split; assumption].
Qed.

(** X2: enriching a list of enquiries with a session [auth] issues one
    lookup for each item whose trip id is truthy, in the order of the
    items and with nothing else in between: equal trip ids are looked up
    again, and items without a trip id (or [null] items) cause none.  The
    lookups are sent to the site of [auth] with the token of [auth]. *)
Theorem enquiries_cause_one_lookup_each
  (net : Network) (l : list JSValue) (auth : JSValue) (m : Machine)
  (Hauth : nullish auth = false) :
  requests (snd (addTripNamesToItems net (JSArray l) auth true m))
  = (requests m ++ lookups_of auth (get_prop auth "token") l)%list /\
  (List.length (lookups_of auth (get_prop auth "token") l)
   <= List.length l)%nat.
Proof.
  split.
  - now apply addTripNamesToItems_enquiry_requests.
  - unfold lookups_of. rewrite length_map. apply filter_length_le.
Qed.

Lemma enquiries_cause_one_lookup_each_witness :
  requests (snd (addTripNamesToItems Scenario.net_kilimanjaro
                   (JSArray [Scenario.enquiry_42; Scenario.enquiry_without_trip;
                             Scenario.enquiry_42])
                   Scenario.auth true Scenario.resumed))
  = [Scenario.lookup_42; Scenario.lookup_42].
Proof.
  apply (enquiries_cause_one_lookup_each Scenario.net_kilimanjaro
           [Scenario.enquiry_42; Scenario.enquiry_without_trip;
            Scenario.enquiry_42]
           Scenario.auth Scenario.resumed eq_refl).
Defined.

(** X3: enrichment is confined to the network: for every input, and
    whether it returns or throws, [addTripNamesToItems] leaves the React
    state, the store, the alerts and the console as they were, and only
    appends to the request log. *)
Theorem addTripNamesToItems_only_requests
  (net : Network) (items auth : JSValue) (isEnquiry : bool) (m : Machine) :
  let m' := snd (addTripNamesToItems net items auth isEnquiry m) in
  ui m' = ui m /\ storage m' = storage m /\ alerts m' = alerts m /\
  console m' = console m /\
  exists rs, requests m' = (requests m ++ rs)%list.
Proof.
  destruct (Quiet_addTripNamesToItems net items auth isEnquiry m)
    as (U & S & A & C & _ & R).
  repeat split; assumption.
Qed.

(** ** The names enrichment gives *)

Lemma or_else_truthy a b : truthy b = true -> truthy (or_else a b) = true.
Proof. intros Hb. unfold or_else. destruct (truthy a) eqn:Ha; assumption. Qed.

Lemma booking_name_truthy net auth token item m :
  nullish item = false ->
  exists name,
    enhance net auth token false item m
    = (Return (with_trip_name item name), m)
    /\ truthy name = true.
Proof.
  intros Hitem. rewrite enhance_booking by assumption.
  eexists. split; [reflexivity|].
  destruct (truthy (order_trips_of item)); [|reflexivity].
  now apply or_else_truthy.
Qed.

Lemma map_async_booking_names net auth token l :
  Forall (fun item => nullish item = false) l ->
  forall m, exists outs,
    map_async (enhance net auth token false) l m = (Return outs, m)
    /\ Forall2 named_copy l outs /\ Forall well_named outs.
Proof.
  induction 1 as [|item l Hitem Hl IH]; intros m; cbn.
  - exists []. repeat split; constructor.
  - destruct (booking_name_truthy net auth token item m Hitem)
      as (name & E & Hname).
    rewrite E. destruct (IH m) as (outs & E' & Hc & Hw). rewrite E'.
    exists (with_trip_name item name :: outs). split; [reflexivity|].
    split; constructor; try assumption.
    + now exists name.
    + unfold well_named, trip_label. rewrite with_trip_name_name.
      split; [assumption|]. unfold or_else. now rewrite Hname.
Qed.

Lemma addTripNamesToItems_bookings net l auth m :
  Forall (fun item => nullish item = false) l -> nullish auth = false ->
  exists outs m',
    addTripNamesToItems net (JSArray l) auth false m = (Return outs, m')
    /\ Forall2 named_copy l outs
    /\ Forall well_named outs.
Proof.
  intros Hl Hauth.
  unfold addTripNamesToItems. cbn [truthy negb].
  rewrite array_length.
  destruct l as [|item l]; cbn [is_zero List.length].
  - exists [], m. repeat split; constructor.
  - replace (Z.of_nat (S (List.length l)) =? 0) with false
      by (symmetry; apply Z.eqb_neq; lia).
    unfold bind at 1, member. rewrite Hauth. cbn [ret].
    unfold bind, await.
    destruct (map_async_booking_names net auth (get_prop auth "token")
                (item :: l) Hl m) as (outs & E & Hc & Hw).
    rewrite E. exists outs, (commit m). repeat split; assumption.
Qed.

Lemma booking_name_truthy_value item : truthy (booking_name item) = true.
Proof.
  unfold booking_name. destruct (truthy (order_trips_of item)); [|reflexivity].
  now apply or_else_truthy.
Qed.

Lemma map_async_booking_exact net auth token l :
  Forall (fun item => nullish item = false) l ->
  forall m,
    map_async (enhance net auth token false) l m
    = (Return (map named_booking l), m).
Proof.
  induction 1 as [|item l Hitem Hl IH]; intros m; cbn [map_async map].
  - reflexivity.
  - rewrite (enhance_booking net auth token item m Hitem), IH. reflexivity.
Qed.

(** X4: for a list of bookings (none of them [null]) and a session,
    enrichment returns without a request, and what it returns is, at each
    position, the item with [trip_name] set to the title of the first
    entry of its [meta.order_trips[0]] when that title is truthy, and to
    ["Unknown Trip"] otherwise.  That value is always truthy, never
    [undefined] and never the empty string, so in the card of a booking
    the expression [trip_name || 'Loading...'] evaluates to the trip name
    and never to its placeholder. *)
Theorem bookings_always_named
  (net : Network) (l : list JSValue) (auth : JSValue) (m : Machine)
  (Hitems : Forall (fun item => nullish item = false) l)
  (Hauth : nullish auth = false) :
  exists m',
    addTripNamesToItems net (JSArray l) auth false m
    = (Return (map named_booking l), m')
    /\ requests m' = requests m
    /\ Forall (fun item =>
                 get_prop (named_booking item) "trip_name" = booking_name item
                 /\ truthy (booking_name item) = true
                 /\ trip_label (named_booking item) = booking_name item) l.
Proof.
  pose proof (addTripNamesToItems_booking_requests net (JSArray l) auth m) as R.
  assert (E : exists m',
             addTripNamesToItems net (JSArray l) auth false m
             = (Return (map named_booking l), m')).
  { unfold addTripNamesToItems. cbn [truthy negb].
    rewrite array_length.
    destruct l as [|item l]; cbn [is_zero List.length].
    - exists m. reflexivity.
    - replace (Z.of_nat (S (List.length l)) =? 0) with false
        by (symmetry; apply Z.eqb_neq; lia).
      unfold bind at 1, member. rewrite Hauth. cbn [ret].
      unfold bind, await.
      rewrite (map_async_booking_exact net auth (get_prop auth "token")
                 (item :: l) Hitems m).
      exists (commit m). reflexivity. }
  destruct E as [m' E]. rewrite E in R. cbn [snd] in R.
  exists m'. split; [exact E|]. split; [exact R|].
  apply Forall_forall. intros item _.
  pose proof (booking_name_truthy_value item) as T.
  unfold named_booking, trip_label. rewrite with_trip_name_name.
  split; [reflexivity|]. split; [exact T|].
  unfold or_else. now rewrite T.
Qed.

Lemma bookings_always_named_witness :
  exists m',
    addTripNamesToItems Cases.net_down
      (JSArray [Scenario.booking_safari; Cases.booking_untitled])
      Scenario.auth false Scenario.resumed
    = (Return [with_trip_name Scenario.booking_safari (JSString "Safari");
               with_trip_name Cases.booking_untitled
                              (JSString "Unknown Trip")], m')
    /\ requests m' = [].
Proof.
  destruct (bookings_always_named Cases.net_down
              [Scenario.booking_safari; Cases.booking_untitled]
              Scenario.auth Scenario.resumed)
    as (m' & E & R & _).
  - repeat constructor.
  - reflexivity.
  - exists m'. split; [exact E | exact R].
Defined.

(** X5: every way in which the lookup of an enquiry can fail is
    absorbed.  For an enquiry with a truthy trip id whose lookup is
    rejected, answered with a non-success status, or answered 200 with a
    body that is not JSON, is [null] or has no [title], the resolver does
    not throw: it returns the item with its [trip_name] set to
    ["Unknown Trip"], having issued that one lookup. *)
Theorem enquiry_lookup_failure_falls_back
  (net : Network) (auth token item : JSValue) (m : Machine)
  (Hitem : nullish item = false)
  (Hid : truthy (enquiry_trip_id item) = true)
  (Hbad : unusable (net (List.length (requests m))
                        (lookup_of auth token item))) :
  exists m',
    enhance net auth token true item m
    = (Return (with_trip_name item Unknown_Trip), m')
    /\ requests m' = (requests m ++ [lookup_of auth token item])%list
    /\ ui m' = ui m /\ storage m' = storage m
    /\ get_prop (with_trip_name item Unknown_Trip) "trip_name" = Unknown_Trip.
Proof.
  destruct (enhance_enquiry_lookup net auth token item m Hitem Hid)
    as (name & m' & E & R & F & I & N & _).
  pose proof (Quiet_enhance net auth token true item m) as Q.
  rewrite E in Q. destruct Q as (U & S & _).
  assert (Hname : name = Unknown_Trip).
  { destruct Hbad as [H | [[e H] | (d & H & Hd)]].
    - now apply F.
    - now apply (I e).
    - now apply (N d). }
  subst name. exists m'. repeat split; try assumption.
  apply with_trip_name_name.
Qed.

Lemma enquiry_lookup_failure_falls_back_witness :
  exists m',
    enhance Cases.net_refusing Scenario.auth (get_prop Scenario.auth "token")
            true Scenario.enquiry_42 Scenario.resumed
    = (Return (with_trip_name Scenario.enquiry_42 Unknown_Trip), m')
    /\ requests m' = [Scenario.lookup_42].
Proof.
  destruct (enquiry_lookup_failure_falls_back Cases.net_refusing Scenario.auth
              (get_prop Scenario.auth "token") Scenario.enquiry_42
              Scenario.resumed eq_refl eq_refl (or_introl eq_refl))
    as (m' & E & R & _).
  exists m'. split; [exact E | exact R].
Defined.

(** ** Items that make enrichment throw *)

Lemma enhance_nullish net auth token isEnquiry item m :
  nullish item = true ->
  enhance net auth token isEnquiry item m = (Throw nullish_access, m).
Proof. intros H. unfold enhance, bind, member. now rewrite H. Qed.

Lemma map_async_nullish net auth token isEnquiry l :
  Exists (fun item => nullish item = true) l ->
  forall m,
    fst (map_async (enhance net auth token isEnquiry) l m)
    = Throw nullish_access.
Proof.
  induction l as [|item l IH]; intros Hex m.
  - inversion Hex.
  - cbn [map_async].
    destruct (nullish item) eqn:Hitem.
    + rewrite (enhance_nullish _ _ _ _ _ _ Hitem).
      destruct (map_async (enhance net auth token isEnquiry) l m)
        as [rr m2]. reflexivity.
    + destruct (enhance_returns net auth token isEnquiry item m Hitem)
        as (name & m1 & E).
      rewrite E.
      assert (Hl : Exists (fun item => nullish item = true) l).
      { inversion Hex; subst; [congruence | assumption]. }
      specialize (IH Hl m1).
      destruct (map_async (enhance net auth token isEnquiry) l m1)
        as [rr m2]. cbn [fst] in IH. subst rr. reflexivity.
Qed.

Lemma addTripNamesToItems_nullish net l auth isEnquiry m :
  Exists (fun item => nullish item = true) l -> nullish auth = false ->
  fst (addTripNamesToItems net (JSArray l) auth isEnquiry m)
  = Throw nullish_access.
Proof.
  intros Hnull Hauth.
  unfold addTripNamesToItems. cbn [truthy negb].
  rewrite array_length.
  destruct l as [|item l]; [inversion Hnull|].
  cbn [is_zero List.length].
  replace (Z.of_nat (S (List.length l)) =? 0) with false
    by (symmetry; apply Z.eqb_neq; lia).
  unfold bind at 1, member. rewrite Hauth. cbn [ret].
  unfold bind, await.
  pose proof (map_async_nullish net auth (get_prop auth "token") isEnquiry
                (item :: l) Hnull m) as H.
  destruct (map_async (enhance net auth (get_prop auth "token") isEnquiry)
              (item :: l) m) as [rr m1]. cbn [fst] in H. subst rr.
  reflexivity.
Qed.

(** X6: one [null] in a list of items makes the whole enrichment reject,
    with the [TypeError] of reading [item.meta], whatever the other items
    are; the rejection only arrives once every callback has run, so the
    lookups of the other enquiries have been issued all the same. *)
Theorem null_item_rejects_enrichment
  (net : Network) (l : list JSValue) (auth : JSValue) (isEnquiry : bool)
  (m : Machine)
  (Hnull : Exists (fun item => nullish item = true) l)
  (Hauth : nullish auth = false) :
  fst (addTripNamesToItems net (JSArray l) auth isEnquiry m)
  = Throw nullish_access /\
  (isEnquiry = true ->
   requests (snd (addTripNamesToItems net (JSArray l) auth isEnquiry m))
   = (requests m ++ lookups_of auth (get_prop auth "token") l)%list).
Proof.
  split.
  - now apply addTripNamesToItems_nullish.
  - intros ->. now apply addTripNamesToItems_enquiry_requests.
Qed.

Lemma null_item_rejects_enrichment_witness :
  fst (addTripNamesToItems Scenario.net_kilimanjaro
         (JSArray [JSNull; Scenario.enquiry_42]) Scenario.auth true
         Scenario.resumed)
  = Throw nullish_access /\
  requests (snd (addTripNamesToItems Scenario.net_kilimanjaro
                   (JSArray [JSNull; Scenario.enquiry_42]) Scenario.auth true
                   Scenario.resumed))
  = [Scenario.lookup_42].
Proof.
  destruct (null_item_rejects_enrichment Scenario.net_kilimanjaro
              [JSNull; Scenario.enquiry_42] Scenario.auth true
              Scenario.resumed)
    as (T & R).
  - left. reflexivity.
  - reflexivity.
  - split; [exact T | exact (R eq_refl)].
Defined.

(** ** How a cycle ends *)

Lemma truthy_not_nullish v : truthy v = true -> nullish v = false.
Proof. destruct v; cbn; congruence. Qed.

Lemma torn_down_console e m1 :
  console (torn_down e m1) = (console m1 ++ [e])%list.
Proof. destruct m1 as [[a b c d e' f g h i j] st rq al co re]. reflexivity. Qed.

Lemma publish_frame eb ee v m m3 :
  quiet (cycle_started v m) m3 ->
  isLoggedIn (ui (publish eb ee m3)) = isLoggedIn (ui m) /\
  currentUsername (ui (publish eb ee m3)) = currentUsername (ui m) /\
  userId (ui (publish eb ee m3)) = userId (ui m) /\
  console (publish eb ee m3) = console m /\
  requests (publish eb ee m3) = requests m3.
Proof.
  intros (U & _ & _ & C & _).
  destruct m3 as [[a b c d e' f g h i j] st rq al co re].
  destruct m as [[a0 b0 c0 d0 e0 f0 g0 h0 i0 j0] st0 rq0 al0 co0 re0].
  cbn in *. injection U as -> _ _ _ _ _ _ _ -> ->. repeat split. assumption.
Qed.

Lemma fetchData_when_gather_throws net m v e m1 :
  storage m = Some (JSONText v) -> truthy v = true ->
  gather net v
    (net (List.length (requests m)) (collection_request v "booking"))
    (net (S (List.length (requests m))) (collection_request v "enquiry"))
    (cycle_started v m) = (Throw e, m1) ->
  fetchData net m = (Return tt, torn_down e m1) /\
  cleared m (torn_down e m1) /\
  console (torn_down e m1) = (console m ++ [e])%list.
Proof.
  intros Hstored Hv Hg.
  rewrite (fetchData_gather net m v Hstored Hv), Hg. cbn [conclude].
  pose proof (Quiet_gather net v
                (net (List.length (requests m)) (collection_request v "booking"))
                (net (S (List.length (requests m)))
                     (collection_request v "enquiry"))
                (cycle_started v m)) as Q.
  rewrite Hg in Q. cbn [snd] in Q.
  destruct (failure_outcome e v m m1 Q) as (_ & _ & C).
  split; [reflexivity|]. split; [exact C|].
  rewrite torn_down_console. destruct Q as (_ & _ & _ & Co & _).
  rewrite Co. reflexivity.
Qed.

(** X7: a cycle that finds a stored session, gets both collections
    answered 200 with lists, none of whose items is [null], never fails
    on enrichment: it ends with the session and the login untouched, no
    alert and nothing written to the console, the loading flag off, and
    both lists published, each item of a list being the fetched item at
    the same position with its trip name written, every booking with a
    truthy name.  The requests of the whole cycle are the two collection
    requests followed by one lookup for each enquiry with a truthy trip
    id. *)
Theorem fetchData_publishes_enriched
  (net : Network) (m : Machine) (v : JSValue) (lb le : list JSValue)
  (Hstored : storage m = Some (JSONText v)) (Hv : truthy v = true)
  (Hp : net (List.length (requests m)) (collection_request v "booking")
        = Responded (mkResponse true (BodyJSON (JSArray lb))))
  (Hq : net (S (List.length (requests m))) (collection_request v "enquiry")
        = Responded (mkResponse true (BodyJSON (JSArray le))))
  (Hlb : Forall (fun item => nullish item = false) lb)
  (Hle : Forall (fun item => nullish item = false) le) :
  exists m',
    fetchData net m = (Return tt, m') /\
    Forall2 named_copy lb (bookings (ui m')) /\
    Forall well_named (bookings (ui m')) /\
    Forall2 named_copy le (enquiries (ui m')) /\
    storage m' = storage m /\
    isLoggedIn (ui m') = isLoggedIn (ui m) /\
    currentUsername (ui m') = currentUsername (ui m) /\
    userId (ui m') = userId (ui m) /\
    isLoading (ui m') = false /\
    alerts m' = alerts m /\
    console m' = console m /\
    requests m' =
      (requests m ++ [collection_request v "booking";
                      collection_request v "enquiry"]
       ++ lookups_of v (get_prop v "token") le)%list.
Proof.
  pose proof (truthy_not_nullish v Hv) as Hauth.
  pose proof (Quiet_gather net v
                (net (List.length (requests m)) (collection_request v "booking"))
                (net (S (List.length (requests m)))
                     (collection_request v "enquiry"))
                (cycle_started v m)) as Q.
  rewrite (fetchData_gather net m v Hstored Hv).
  rewrite Hp, Hq in *.
  unfold gather, bind, await in *.
  cbn [Promise_all2 ret ok negb orb json body] in *.
  destruct (addTripNamesToItems_bookings net lb v
              (commit (commit (commit (cycle_started v m)))) Hlb Hauth)
    as (eb & m2 & E1 & Hcb & Hwb).
  pose proof (addTripNamesToItems_booking_requests net (JSArray lb) v
                (commit (commit (commit (cycle_started v m))))) as R1.
  rewrite E1 in *. cbn [snd] in R1.
  destruct (addTripNamesToItems_array net le v true (commit m2) Hle Hauth)
    as (ee & m3 & E2 & Hce).
  pose proof (addTripNamesToItems_enquiry_requests net le v (commit m2) Hauth)
    as R2.
  rewrite E2 in *. cbn [snd ret] in R2, Q. cbn [conclude ret].
  exists (publish eb ee (commit m3)).
  destruct (publish_outcome eb ee v m _ Q) as (_ & L & B & En & St & Al).
  destruct (publish_frame eb ee v m _ Q) as (Li & Cu & Us & Co & Rq).
  split; [reflexivity|].
  rewrite B, En.
  repeat split; try assumption.
  rewrite Rq. cbn [requests commit] in *. rewrite R2, R1.
  destruct m as [ui0 st rq al co re]. cbn.
  rewrite <- !app_assoc. reflexivity.
Qed.

Lemma fetchData_publishes_enriched_witness :
  exists m',
    fetchData Cases.net_dashboard Scenario.resumed = (Return tt, m') /\
    map trip_label (bookings (ui m')) = [JSString "Safari"] /\
    map trip_label (enquiries (ui m'))
    = [JSString "Kilimanjaro"; JSString "Kilimanjaro"] /\
    storage m' = Some (JSONText Scenario.auth) /\
    requests m' = [collection_request Scenario.auth "booking";
                   collection_request Scenario.auth "enquiry";
                   Scenario.lookup_42; Scenario.lookup_42].
Proof.
  destruct (fetchData_publishes_enriched Cases.net_dashboard Scenario.resumed
              Scenario.auth [Scenario.booking_safari]
              [Scenario.enquiry_42; Scenario.enquiry_42]
              eq_refl eq_refl eq_refl eq_refl)
    as (m' & E & _ & _ & _ & S & _ & _ & _ & _ & _ & _ & R).
  - repeat constructor.
  - repeat constructor.
  - exists m'. split; [exact E|].
    cbv in E. injection E as <-. repeat split.
Defined.

Lemma gather_unusable_bookings net v b1 b2 m0 :
  nullish v = false ->
  ((exists e, b1 = BodyInvalid e) \/
   (exists ps, b1 = BodyJSON (JSObject ps) /\
               is_zero (get_prop (JSObject ps) "length") = false) \/
   (exists l, b1 = BodyJSON (JSArray l) /\
              Exists (fun item => nullish item = true) l)) ->
  exists e m1,
    gather net v (Responded (mkResponse true b1))
      (Responded (mkResponse true b2)) m0 = (Throw e, m1)
    /\ requests m1 = requests m0.
Proof.
  intros Hauth Hbad.
  unfold gather, bind, await.
  destruct Hbad as [[e ->] | Hbad].
  { cbn [Promise_all2 ret ok negb orb json body throw].
    do 2 eexists. split; reflexivity. }
  assert (Hjson : exists d, b1 = BodyJSON d).
  { destruct Hbad as [(ps & -> & _) | (l & -> & _)]; eexists; reflexivity. }
  destruct Hjson as [d Hd]. subst b1.
  destruct b2 as [ed | e2];
    cbn [Promise_all2 ret ok negb orb json body throw].
  2:{ do 2 eexists. split; reflexivity. }
  pose proof (addTripNamesToItems_booking_requests net d v
                (commit (commit (commit m0)))) as R.
  assert (T : exists e,
             fst (addTripNamesToItems net d v false
                    (commit (commit (commit m0)))) = Throw e).
  { destruct Hbad as [(ps & E & Hz) | (l & E & Hnull)];
      injection E as ->.
    - exists not_a_function. unfold addTripNamesToItems.
      cbn [truthy negb]. rewrite Hz.
      unfold bind, member. rewrite Hauth. reflexivity.
    - exists nullish_access. now apply addTripNamesToItems_nullish. }
  destruct T as [e T].
  destruct (addTripNamesToItems net d v false (commit (commit (commit m0))))
    as [r m2]. cbn [fst snd] in *. subst r.
  exists e, (commit m2). split; [reflexivity | exact R].
Qed.

(** X8: enrichment is not shielded from a collection that was answered
    200 with a body the code cannot use.  When the session is stored, both
    collections are answered with a success status, and the body of the
    bookings is not JSON, is an object whose [length] is not 0 (an error
    object, say), or is a list that contains [null], the cycle ends like a
    failed fetch: store removed, logged out, both lists empty, the alert
    raised; only the two collection requests were issued. *)
Theorem fetchData_unusable_body_clears
  (net : Network) (m : Machine) (v : JSValue) (b1 b2 : Body)
  (Hstored : storage m = Some (JSONText v)) (Hv : truthy v = true)
  (Hp : net (List.length (requests m)) (collection_request v "booking")
        = Responded (mkResponse true b1))
  (Hq : net (S (List.length (requests m))) (collection_request v "enquiry")
        = Responded (mkResponse true b2))
  (Hbad : (exists e, b1 = BodyInvalid e) \/
          (exists ps, b1 = BodyJSON (JSObject ps) /\
                      is_zero (get_prop (JSObject ps) "length") = false) \/
          (exists l, b1 = BodyJSON (JSArray l) /\
                     Exists (fun item => nullish item = true) l)) :
  exists m',
    fetchData net m = (Return tt, m') /\
    cleared m m' /\
    requests m' = (requests m ++ [collection_request v "booking";
                                  collection_request v "enquiry"])%list.
Proof.
  destruct (gather_unusable_bookings net v b1 b2 (cycle_started v m)
              (truthy_not_nullish v Hv) Hbad) as (e & m1 & Hg & R).
  rewrite <- Hp, <- Hq in Hg.
  destruct (fetchData_when_gather_throws net m v e m1 Hstored Hv Hg)
    as (E & C & _).
  exists (torn_down e m1). split; [exact E|]. split; [exact C|].
  destruct (torn_down_frame e m1) as (_ & Rq & _). rewrite Rq, R.
  destruct m as [ui0 st rq al co re]. cbn. now rewrite <- app_assoc.
Qed.

Lemma fetchData_unusable_body_clears_witness :
  exists m',
    fetchData Cases.net_error_object Scenario.resumed = (Return tt, m') /\
    cleared Scenario.resumed m' /\
    requests m' = [collection_request Scenario.auth "booking";
                   collection_request Scenario.auth "enquiry"].
Proof.
  apply (fetchData_unusable_body_clears Cases.net_error_object
           Scenario.resumed Scenario.auth
           (BodyJSON (JSObject [("code", JSString "rest_forbidden")]))
           (BodyJSON (JSObject [("code", JSString "rest_forbidden")]))
           eq_refl eq_refl eq_refl eq_refl).
  right; left. eexists. split; reflexivity.
Defined.

(** ** Login attempts *)

Lemma form_complete_guard s :
  form_complete s ->
  negb (truthy (siteUrl s)) || text_empty (username s)
  || text_empty (appPassword s) = false.
Proof.
  intros (Hs & Hu & Hp).
  rewrite Hs, (text_empty_false _ Hu), (text_empty_false _ Hp). reflexivity.
Qed.

Lemma form_incomplete_guard s :
  ~ form_complete s ->
  negb (truthy (siteUrl s)) || text_empty (username s)
  || text_empty (appPassword s) = true.
Proof.
  intros H. unfold form_complete in H.
  destruct (truthy (siteUrl s)); [|reflexivity].
  destruct (username s) as [|u us]; [reflexivity|].
  destruct (appPassword s) as [|p ps]; [reflexivity|].
  exfalso. apply H. repeat split; discriminate.
Qed.

(** A filled-in form that [btoa] refuses: the handler throws where it
    stands, with the loading flag on and the error cleared. *)
Lemma handleLogin_not_latin1 net m :
  form_complete (ui m) -> latin1 (credential_text (ui m)) = false ->
  handleLogin net m = (Throw invalid_character, with_ui attempting m).
Proof.
  intros Hform Hlatin.
  pose proof (form_complete_guard _ Hform) as Hguard.
  revert Hlatin Hguard. unfold credential_text.
  destruct m as [[a b c d e f g h i j] st rq al co re].
  cbn [ui siteUrl username appPassword]. intros Hlatin Hguard.
  unfold handleLogin.
  cbn -[btoa latin1 colon Base64.encode text_empty truthy].
  rewrite Hguard.
  unfold bind at 1, btoa. rewrite Hlatin. reflexivity.
Qed.

(** What a login attempt with a filled-in form that [btoa] accepts ends
    in, by the answer to its identity request. *)
Lemma handleLogin_answered net m :
  form_complete (ui m) -> latin1 (credential_text (ui m)) = true ->
  let answer := net (List.length (requests m)) (identity_request (ui m)) in
  exists m',
    handleLogin net m = (Return tt, m') /\
    isLoading (ui m') = false /\
    requests m' = (requests m ++ [identity_request (ui m)])%list /\
    alerts m' = alerts m /\
    (exists k, renders m'
               = (renders m ++ repeat (attempting (ui m)) (S k))%list) /\
    username (ui m') = username (ui m) /\
    appPassword (ui m') = appPassword (ui m) /\
    match answer with
    | Rejected e =>
        same_session m m' /\ loginError (ui m') = message e
    | Responded (mkResponse false _) =>
        same_session m m' /\ loginError (ui m') = invalid_credentials
    | Responded (mkResponse true (BodyInvalid e)) =>
        same_session m m' /\ loginError (ui m') = message e
    | Responded (mkResponse true (BodyJSON d)) =>
        if nullish d then
          same_session m m' /\ loginError (ui m') = message nullish_access
        else
          storage m' = Some (JSON_stringify (auth_payload d (ui m))) /\
          isLoggedIn (ui m') = true /\
          currentUsername (ui m') = get_prop d "name" /\
          userId (ui m') = get_prop d "id" /\
          siteUrl (ui m') = siteUrl (ui m) /\
          loginError (ui m') = ""
    end.
Proof.
  intros Hform Hlatin.
  pose proof (form_complete_guard _ Hform) as Hguard.
  revert Hlatin Hguard.
  unfold identity_request, credential_token, credential_text, auth_payload,
    same_session, attempting.
  destruct m as [[a b c d e f g h i j] st rq al co re].
  cbn [ui siteUrl username appPassword requests storage alerts renders
       isLoggedIn currentUsername userId bookings enquiries].
  intros Hlatin Hguard.
  unfold handleLogin.
  cbn -[btoa latin1 colon Base64.encode text_empty truthy jsonify].
  rewrite Hguard.
  unfold bind at 1, btoa. rewrite Hlatin. cbn [ret].
  unfold finally, try_catch, bind, fetch, await, settle.
  cbn -[latin1 colon Base64.encode text_empty truthy jsonify].
  match goal with
  | |- context [net ?n ?r] => destruct (net n r) as [err | [[|] [dta | err]]]
  end; cbn -[latin1 colon Base64.encode text_empty truthy jsonify].
  - eexists. split; [reflexivity|]. cbn.
      repeat split;
        solve [exists 0%nat; reflexivity
              | exists 1%nat; cbn; rewrite <- app_assoc; reflexivity].
  - unfold member. destruct (nullish dta) eqn:Hd;
      cbn -[latin1 colon Base64.encode text_empty truthy jsonify].
    + eexists. split; [reflexivity|]. cbn.
      repeat split;
        solve [exists 0%nat; reflexivity
              | exists 1%nat; cbn; rewrite <- app_assoc; reflexivity].
    + eexists. split; [reflexivity|].
      cbn -[latin1 colon Base64.encode text_empty truthy jsonify].
      repeat split;
        solve [exists 0%nat; reflexivity
              | exists 1%nat; cbn; rewrite <- app_assoc; reflexivity].
  - eexists. split; [reflexivity|]. cbn.
      repeat split;
        solve [exists 0%nat; reflexivity
              | exists 1%nat; cbn; rewrite <- app_assoc; reflexivity].
  - eexists. split; [reflexivity|]. cbn.
      repeat split;
        solve [exists 0%nat; reflexivity
              | exists 1%nat; cbn; rewrite <- app_assoc; reflexivity].
  - eexists. split; [reflexivity|]. cbn.
      repeat split;
        solve [exists 0%nat; reflexivity
              | exists 1%nat; cbn; rewrite <- app_assoc; reflexivity].
Qed.

(** X9: a login that the server refuses.  With the form filled in with a
    username and a password that [btoa] accepts, and the identity request
    answered with a non-success status, [handleLogin] reports
    ["Invalid username or application password."], whatever the status
    and the body are; nothing is persisted, the user is not logged in,
    the loading flag is off, and that one request is all that was
    sent. *)
Theorem handleLogin_refused
  (net : Network) (m : Machine) (b : Body)
  (Hform : form_complete (ui m))
  (Hlatin : latin1 (credential_text (ui m)) = true)
  (Hnet : net (List.length (requests m)) (identity_request (ui m))
          = Responded (mkResponse false b)) :
  exists m',
    handleLogin net m = (Return tt, m') /\
    loginError (ui m') = invalid_credentials /\
    same_session m m' /\
    isLoading (ui m') = false /\
    requests m' = (requests m ++ [identity_request (ui m)])%list.
Proof.
  destruct (handleLogin_answered net m Hform Hlatin)
    as (m' & E & L & R & _ & _ & _ & _ & H).
  rewrite Hnet in H. destruct H as (S & Err).
  exists m'. repeat split; try assumption; apply S.
Qed.

Lemma handleLogin_refused_witness :
  exists m',
    handleLogin Cases.net_refusing (Scenario.login_form "alice" "wrong")
    = (Return tt, m') /\
    loginError (ui m') = invalid_credentials /\
    storage m' = None /\
    isLoggedIn (ui m') = false.
Proof.
  destruct (handleLogin_refused Cases.net_refusing
              (Scenario.login_form "alice" "wrong") (BodyJSON JSNull))
    as (m' & E & Err & (St & Li & _) & _).
  - repeat split; discriminate.
  - reflexivity.
  - reflexivity.
  - exists m'. repeat split; assumption.
Defined.

(** X10: a login that breaks on the way.  With the form filled in with a
    username and a password that [btoa] accepts, when the identity request
    is rejected with an error, or answered 200 with a body that is not
    JSON, [handleLogin] does not throw: it shows the message of that error
    as the login error, and persists nothing. *)
Theorem handleLogin_shows_error_message
  (net : Network) (m : Machine) (e : Exn)
  (Hform : form_complete (ui m))
  (Hlatin : latin1 (credential_text (ui m)) = true)
  (Hnet : net (List.length (requests m)) (identity_request (ui m))
          = Rejected e \/
          net (List.length (requests m)) (identity_request (ui m))
          = Responded (mkResponse true (BodyInvalid e))) :
  exists m',
    handleLogin net m = (Return tt, m') /\
    loginError (ui m') = message e /\
    same_session m m' /\
    isLoading (ui m') = false.
Proof.
  destruct (handleLogin_answered net m Hform Hlatin)
    as (m' & E & L & R & _ & _ & _ & _ & H).
  exists m'.
  destruct Hnet as [Hnet | Hnet]; rewrite Hnet in H; destruct H as (S & Err);
    repeat split; try assumption; apply S.
Qed.

Lemma handleLogin_shows_error_message_witness :
  exists m',
    handleLogin Cases.net_down (Scenario.login_form "alice" "secret")
    = (Return tt, m') /\
    loginError (ui m') = "Failed to fetch" /\
    storage m' = None.
Proof.
  destruct (handleLogin_shows_error_message Cases.net_down
              (Scenario.login_form "alice" "secret")
              (mkExn KTypeError "Failed to fetch"))
    as (m' & E & Err & (St & _) & _).
  - repeat split; discriminate.
  - reflexivity.
  - left. reflexivity.
  - exists m'. repeat split; assumption.
Defined.

Lemma form_complete_dec s : form_complete s \/ ~ form_complete s.
Proof.
  unfold form_complete.
  destruct (truthy (siteUrl s));
    destruct (username s); destruct (appPassword s);
    try (right; intros (H1 & H2 & H3); congruence).
  left. repeat split; discriminate.
Qed.

Lemma handleLogin_incomplete net m :
  ~ form_complete (ui m) ->
  exists m',
    handleLogin net m = (Return tt, m') /\ isLoading (ui m') = false /\
    same_session m m' /\ requests m' = requests m.
Proof.
  intros H. pose proof (form_incomplete_guard _ H) as Hguard.
  destruct m as [[a b c d e f g h i j] st rq al co re].
  cbn [ui siteUrl username appPassword] in Hguard.
  unfold handleLogin.
  cbn -[btoa latin1 colon Base64.encode text_empty truthy].
  rewrite Hguard. cbn.
  eexists. split; [reflexivity|]. repeat split.
Qed.

Lemma same_session_attempting m : same_session m (with_ui attempting m).
Proof.
  destruct m as [[a b c d e f g h i j] st rq al co re]. repeat split.
Qed.

(** X11: a login attempt is all or nothing.  Whatever the form holds and
    whatever the network does, [handleLogin] sends at most one request and
    ends in one of three ways.  It throws, exactly when the form is filled
    in with a username or password that holds a code unit above 255:
    [btoa] refuses it before the [try], no request is sent, the session is
    left alone, and the loading flag stays on.  Or it returns with the
    loading flag off and the session left alone (store, login flag, actor
    and collections as they were).  Or it returns with the loading flag
    off after the identity request was answered 200 with a JSON value
    other than [null]: the user is logged in as the actor of that answer,
    and the record built from it is what the store holds. *)
Theorem handleLogin_all_or_nothing (net : Network) (m : Machine) :
  exists r m',
    handleLogin net m = (r, m') /\
    (requests m' = requests m \/
     requests m' = (requests m ++ [identity_request (ui m)])%list) /\
    ((r = Throw invalid_character /\
      form_complete (ui m) /\ latin1 (credential_text (ui m)) = false /\
      requests m' = requests m /\ same_session m m' /\
      isLoading (ui m') = true) \/
     (r = Return tt /\
      ~ (form_complete (ui m) /\ latin1 (credential_text (ui m)) = false) /\
      isLoading (ui m') = false /\
      (same_session m m' \/
       exists d,
         net (List.length (requests m)) (identity_request (ui m))
         = Responded (mkResponse true (BodyJSON d)) /\
         nullish d = false /\
         isLoggedIn (ui m') = true /\
         currentUsername (ui m') = get_prop d "name" /\
         userId (ui m') = get_prop d "id" /\
         storage m' = Some (JSON_stringify (auth_payload d (ui m)))))).
Proof.
  destruct (form_complete_dec (ui m)) as [Hform | Hform].
  - destruct (latin1 (credential_text (ui m))) eqn:Hlatin.
    + destruct (handleLogin_answered net m Hform Hlatin)
        as (m' & E & L & R & _ & _ & _ & _ & H).
      exists (Return tt), m'. split; [exact E|]. split; [now right|].
      right. split; [reflexivity|].
      split; [intros (_ & F); discriminate F|]. split; [exact L|].
      destruct (net (List.length (requests m)) (identity_request (ui m)))
        as [e | [[|] [d | e]]]; try (left; apply H).
      destruct (nullish d) eqn:Hd; [left; apply H|].
      right. exists d. destruct H as (St & Li & Cu & Us & _).
      repeat split; assumption.
    + exists (Throw invalid_character), (with_ui attempting m).
      split; [now apply handleLogin_not_latin1|]. split; [now left|].
      left. split; [reflexivity|]. split; [exact Hform|].
      split; [reflexivity|]. split; [reflexivity|].
      split; [apply same_session_attempting|].
      destruct m as [[a b c d e f g h i j] st rq al co re]. reflexivity.
  - destruct (handleLogin_incomplete net m Hform) as (m' & E & L & S & R).
    exists (Return tt), m'. split; [exact E|]. split; [now left|].
    right. split; [reflexivity|]. split; [tauto|]. split; [exact L|].
    now left.
Qed.

Lemma handleLogin_all_or_nothing_witness :
  handleLogin Scenario.net_identity
    (with_ui (Set_.username (300%N :: text "lice"))
             (Scenario.login_form "alice" "secret"))
  = (Throw invalid_character,
     with_ui attempting
       (with_ui (Set_.username (300%N :: text "lice"))
                (Scenario.login_form "alice" "secret"))).
Proof.
  destruct (handleLogin_all_or_nothing Scenario.net_identity
              (with_ui (Set_.username (300%N :: text "lice"))
                       (Scenario.login_form "alice" "secret")))
    as (r & m' & E & _ & [(Hr & _) | (Hr & Hn & _)]).
  - reflexivity.
  - exfalso. apply Hn. split; [repeat split; discriminate | reflexivity].
Defined.

(** ** What is persisted and what is read back *)

Lemma stored_session_fields d s :
  is_JSON d = true -> is_JSON (siteUrl s) = true ->
  truthy (jsonify (auth_payload d s)) = true /\
  get_prop (jsonify (auth_payload d s)) "username" = get_prop d "name" /\
  get_prop (jsonify (auth_payload d s)) "userId" = get_prop d "id" /\
  get_prop (jsonify (auth_payload d s)) "siteUrl" = siteUrl s /\
  get_prop (jsonify (auth_payload d s)) "token"
  = JSString (credential_token s).
Proof.
  intros Hd Hs. unfold auth_payload.
  generalize (credential_token s) as token. intros token.
  pose proof (is_JSON_defined _ Hs) as Hsu.
  pose proof (jsonify_JSON _ Hs) as Hsj.
  destruct (get_prop_JSON d "name" Hd) as [-> | Hn];
    destruct (get_prop_JSON d "id" Hd) as [-> | Hi]; cbn;
    rewrite ?Hsu, ?Hsj;
    rewrite ?(is_JSON_defined _ Hn), ?(jsonify_JSON _ Hn);
    rewrite ?(is_JSON_defined _ Hi), ?(jsonify_JSON _ Hi);
    repeat split.
Qed.

Lemma rehydrate_record m v :
  storage m = Some (JSONText v) -> nullish v = false ->
  rehydrate m = (Return tt, with_ui (rehydrated v) m).
Proof.
  intros Hst Hv. destruct m as [[a b c d e f g h i j] st rq al co re].
  cbn in Hst. subst st.
  unfold rehydrate, bind, localStorage_getItem, member; cbn.
  rewrite Hv. reflexivity.
Qed.

(** X12: what a login persists is what a reload restores.  After a login
    that succeeded (form filled in with a JSON site address and with a
    username and a password that [btoa] accepts, identity request
    answered 200 with a JSON value other than [null]), running the
    rehydration effect on a fresh page over the same store logs the user
    in again with the site address, the actor name and the actor id that
    the login had left in the state. *)
Theorem login_survives_reload
  (net : Network) (m : Machine) (d : JSValue)
  (Hform : form_complete (ui m))
  (Hlatin : latin1 (credential_text (ui m)) = true)
  (Hsite : is_JSON (siteUrl (ui m)) = true)
  (Hnet : net (List.length (requests m)) (identity_request (ui m))
          = Responded (mkResponse true (BodyJSON d)))
  (Hjson : is_JSON d = true) (Hd : nullish d = false) :
  exists m' mr,
    handleLogin net m = (Return tt, m') /\
    rehydrate (initial_machine (storage m')) = (Return tt, mr) /\
    isLoggedIn (ui mr) = true /\
    isLoading (ui mr) = false /\
    siteUrl (ui mr) = siteUrl (ui m') /\
    currentUsername (ui mr) = currentUsername (ui m') /\
    userId (ui mr) = userId (ui m').
Proof.
  destruct (handleLogin_answered net m Hform Hlatin)
    as (m' & E & _ & _ & _ & _ & _ & _ & H).
  rewrite Hnet, Hd in H. destruct H as (St & _ & Cu & Us & Si & _).
  destruct (stored_session_fields d (ui m) Hjson Hsite)
    as (Tr & Fu & Fi & Fs & _).
  exists m', (with_ui (rehydrated (jsonify (auth_payload d (ui m))))
                      (initial_machine (storage m'))).
  split; [exact E|]. split.
  - apply rehydrate_record; [rewrite St; reflexivity|].
    now apply truthy_not_nullish.
  - unfold initial_machine, with_ui, rehydrated, initial_app.
    cbn [ui isLoggedIn isLoading siteUrl currentUsername userId
         Set_.isLoading Set_.isLoggedIn Set_.userId Set_.currentUsername
         Set_.siteUrl].
    rewrite Fu, Fi, Fs, Cu, Us, Si. repeat split.
Qed.

Lemma login_survives_reload_witness :
  exists m' mr,
    handleLogin Scenario.net_identity (Scenario.login_form "Alice S." "secret")
    = (Return tt, m') /\
    rehydrate (initial_machine (storage m')) = (Return tt, mr) /\
    currentUsername (ui mr) = JSString "alice" /\
    userId (ui mr) = JSNum 7.
Proof.
  destruct (login_survives_reload Scenario.net_identity
              (Scenario.login_form "Alice S." "secret") Scenario.identity)
    as (m' & mr & E & R & _ & _ & _ & Cu & Us).
  - repeat split; discriminate.
  - reflexivity.
  - reflexivity.
  - reflexivity.
  - reflexivity.
  - reflexivity.
  - exists m', mr. split; [exact E|]. split; [exact R|].
    rewrite Cu, Us. cbv in E. injection E as <-. split; reflexivity.
Defined.

(** ** The effect that follows a login or a logout *)

Lemma fetchData_requests net m v :
  storage m = Some (JSONText v) -> truthy v = true ->
  exists m' rs,
    fetchData net m = (Return tt, m') /\
    requests m' = (requests m ++ [collection_request v "booking";
                                  collection_request v "enquiry"] ++ rs)%list.
Proof.
  intros Hstored Hv.
  rewrite (fetchData_gather net m v Hstored Hv).
  pose proof (Quiet_gather net v
                (net (List.length (requests m)) (collection_request v "booking"))
                (net (S (List.length (requests m)))
                     (collection_request v "enquiry"))
                (cycle_started v m)) as Q.
  destruct (gather net v _ _ (cycle_started v m)) as [[[eb ee] | e] m1];
    cbn [snd conclude] in *; destruct Q as (_ & _ & _ & _ & _ & [rs R]).
  - exists (publish eb ee m1), rs. split; [reflexivity|].
    destruct m1 as [u1 s1 r1 a1 c1 re1]. cbn in *. rewrite R.
    rewrite <- !app_assoc. reflexivity.
  - exists (torn_down e m1), rs. split; [reflexivity|].
    destruct (torn_down_frame e m1) as (_ & Rq & _). rewrite Rq, R.
    cbn. rewrite <- !app_assoc. reflexivity.
Qed.

(** X13: a successful login is followed by the fetch of the dashboard
    with the session it has just persisted.  After a login that succeeded
    (with a username and a password that [btoa] accepts),
    the effect that follows [isLoggedIn] does not throw, and the first two
    requests it sends are the bookings and the enquiries collections of
    the site that was typed, filtered by the actor id the server returned
    and authorised by the token computed from the typed username and
    password. *)
Theorem login_triggers_dashboard_fetch
  (net : Network) (m : Machine) (d : JSValue)
  (Hform : form_complete (ui m))
  (Hlatin : latin1 (credential_text (ui m)) = true)
  (Hsite : is_JSON (siteUrl (ui m)) = true)
  (Hnet : net (List.length (requests m)) (identity_request (ui m))
          = Responded (mkResponse true (BodyJSON d)))
  (Hjson : is_JSON d = true) (Hd : nullish d = false) :
  exists m' m'' rs,
    handleLogin net m = (Return tt, m') /\
    effect_isLoggedIn net m' = (Return tt, m'') /\
    requests m'' =
      (requests m ++
       [identity_request (ui m);
        GetCollection (siteUrl (ui m)) "booking" (get_prop d "id")
                      (JSString (credential_token (ui m)));
        GetCollection (siteUrl (ui m)) "enquiry" (get_prop d "id")
                      (JSString (credential_token (ui m)))]
       ++ rs)%list.
Proof.
  destruct (handleLogin_answered net m Hform Hlatin)
    as (m' & E & _ & R & _ & _ & _ & _ & H).
  rewrite Hnet, Hd in H. destruct H as (St & Li & _).
  destruct (stored_session_fields d (ui m) Hjson Hsite)
    as (Tr & _ & Fi & Fs & Ft).
  destruct (fetchData_requests net m' _ St Tr) as (m'' & rs & E' & R').
  exists m', m'', rs. split; [exact E|]. split.
  - unfold effect_isLoggedIn. rewrite Li, E'. reflexivity.
  - rewrite R', R. unfold collection_request. rewrite Fi, Fs, Ft.
    rewrite <- app_assoc. reflexivity.
Qed.

Lemma login_triggers_dashboard_fetch_witness :
  exists m' m'' rs,
    handleLogin Cases.net_dashboard (Scenario.login_form "alice" "secret")
    = (Return tt, m') /\
    effect_isLoggedIn Cases.net_dashboard m' = (Return tt, m'') /\
    requests m'' =
      ([GetUsersMe (JSString Scenario.site) (Base64.btoa "alice:secret");
        collection_request Scenario.auth "booking";
        collection_request Scenario.auth "enquiry"] ++ rs)%list.
Proof.
  destruct (login_triggers_dashboard_fetch Cases.net_dashboard
              (Scenario.login_form "alice" "secret") Scenario.identity)
    as (m' & m'' & rs & E & E' & R).
  - repeat split; discriminate.
  - reflexivity.
  - reflexivity.
  - reflexivity.
  - reflexivity.
  - reflexivity.
  - exists m', m'', rs. split; [exact E|]. split; [exact E'|]. exact R.
Defined.

Lemma gather_fetch_failed net v p q m0 :
  fetch_failed p = true \/ fetch_failed q = true ->
  exists e, gather net v p q m0 = (Throw e, commit m0).
Proof.
  intros H. unfold gather, bind, await.
  destruct p as [e1 | [o1 b1]], q as [e2 | [o2 b2]];
    cbn [Promise_all2 ret throw ok];
    try (eexists; reflexivity).
  destruct o1, o2; cbn in *; try (eexists; reflexivity).
  destruct H; discriminate.
Qed.

Lemma fetchData_no_session net m :
  storage m = None ->
  fetchData net m = (Return tt, with_ui (Set_.isLoading false) m).
Proof.
  intros H. destruct m as [[a b c d e f g h i j] st rq al co re].
  cbn in H. subst st. reflexivity.
Qed.

Lemma with_ui_isLoading_false m :
  isLoading (ui m) = false -> with_ui (Set_.isLoading false) m = m.
Proof.
  destruct m as [[a b c d e f g h i j] st rq al co re]. cbn.
  intros ->. reflexivity.
Qed.

(** X14: a failed cycle is not retried.  When a cycle that found a stored
    session fails on one of its two fetches, it has logged the user out,
    so the effect that follows [isLoggedIn] leaves the machine as it is
    and sends nothing; and calling [fetchData] once more finds no session
    and returns without a request. *)
Theorem failed_cycle_is_not_retried
  (net : Network) (m : Machine) (v : JSValue)
  (Hstored : storage m = Some (JSONText v)) (Hv : truthy v = true)
  (Hfail :
     fetch_failed (net (List.length (requests m))
                       (collection_request v "booking")) = true \/
     fetch_failed (net (S (List.length (requests m)))
                       (collection_request v "enquiry")) = true) :
  exists m',
    fetchData net m = (Return tt, m') /\
    effect_isLoggedIn net m' = (Return tt, m') /\
    fetchData net m' = (Return tt, m').
Proof.
  destruct (gather_fetch_failed net v _ _ (cycle_started v m) Hfail)
    as (e & Hg).
  destruct (fetchData_when_gather_throws net m v e _ Hstored Hv Hg)
    as (E & C & _).
  destruct (torn_down_frame e (commit (cycle_started v m))) as (_ & _ & L).
  destruct C as (St & Li & _).
  exists (torn_down e (commit (cycle_started v m))).
  split; [exact E|]. split.
  - unfold effect_isLoggedIn. rewrite Li. reflexivity.
  - rewrite (fetchData_no_session net _ St).
    now rewrite with_ui_isLoading_false.
Qed.

Lemma failed_cycle_is_not_retried_witness :
  exists m',
    fetchData Cases.net_down Scenario.resumed = (Return tt, m') /\
    effect_isLoggedIn Cases.net_down m' = (Return tt, m') /\
    List.length (requests m') = 2%nat.
Proof.
  destruct (failed_cycle_is_not_retried Cases.net_down Scenario.resumed
              Scenario.auth eq_refl eq_refl (or_introl eq_refl))
    as (m' & E & E' & _).
  exists m'. split; [exact E|]. split; [exact E'|].
  cbv in E. injection E as <-. reflexivity.
Defined.

(** ** The screen *)

(** X15: the login form is never rendered with its submit button
    disabled.  [App] renders the login form exactly when nobody is logged
    in and nothing is loading (with the loading flag on and nobody logged
    in, line 175 returns the full-screen loader instead); the form then
    has its [disabled] attribute false, so the button shows its label and
    not its spinner, and its banner shows the login error exactly when
    that is not empty. *)
Theorem login_form_never_disabled
  (s : AppState) (banner : option string) (disabled : bool) :
  screen s = LoginForm banner disabled <->
  (isLoggedIn s = false /\
   isLoading s = false /\
   disabled = false /\
   banner = (if String.eqb (loginError s) "" then None
             else Some (loginError s))).
Proof.
  unfold screen. split.
  - intros Hscreen.
    destruct (isLoading s), (isLoggedIn s); cbn in Hscreen;
      try discriminate Hscreen.
    injection Hscreen as <- <-. repeat split.
  - intros (-> & -> & -> & ->). reflexivity.
Qed.

Lemma login_form_never_disabled_witness :
  screen (ui (snd (handleLogin Cases.net_refusing
                     (Scenario.login_form "alice" "wrong"))))
  = LoginForm (Some invalid_credentials) false /\
  isLoading (ui (snd (handleLogin Cases.net_refusing
                        (Scenario.login_form "alice" "wrong")))) = false.
Proof.
  destruct (login_form_never_disabled
              (ui (snd (handleLogin Cases.net_refusing
                          (Scenario.login_form "alice" "wrong"))))
              (Some invalid_credentials) false)
    as (Hshown & Hshows).
  split.
  - apply Hshows. repeat split.
  - destruct (Hshown (Hshows ltac:(repeat split))) as (_ & L & _). exact L.
Defined.

(** X16: while a login attempt is on its way the form is not on the
    screen.  For a user who is not logged in and a form filled in with a
    username and a password that [btoa] accepts, [handleLogin] returns,
    and every state committed between the submission and its end (there
    is at least one) makes [App] render the full-screen loader; the typed
    username and password are kept in the state throughout.  With a
    username or password that [btoa] refuses, [handleLogin] throws before
    any request is sent or any state committed, and the state it leaves
    behind renders the full-screen loader. *)
Theorem login_in_flight_shows_loader
  (net : Network) (m : Machine)
  (Hform : form_complete (ui m))
  (Hout : isLoggedIn (ui m) = false) :
  (latin1 (credential_text (ui m)) = true ->
   exists m' shown,
     handleLogin net m = (Return tt, m') /\
     renders m' = (renders m ++ shown)%list /\
     shown <> [] /\
     Forall (fun s => screen s = FullLoader /\
                      username s = username (ui m) /\
                      appPassword s = appPassword (ui m)) shown /\
     username (ui m') = username (ui m) /\
     appPassword (ui m') = appPassword (ui m)) /\
  (latin1 (credential_text (ui m)) = false ->
   exists m',
     handleLogin net m = (Throw invalid_character, m') /\
     renders m' = renders m /\
     requests m' = requests m /\
     screen (ui m') = FullLoader).
Proof.
  split; intros Hlatin.
  - destruct (handleLogin_answered net m Hform Hlatin)
      as (m' & E & _ & _ & _ & [k R] & Hu & Hp & _).
    exists m', (repeat (attempting (ui m)) (S k)).
    split; [exact E|]. split; [exact R|]. split; [discriminate|].
    split; [|split; assumption].
    apply Forall_forall. intros s Hin. apply repeat_spec in Hin. subst s.
    destruct m as [[a b c d e f g h i j] st rq al co re].
    cbn in Hout. subst a. repeat split.
  - exists (with_ui attempting m).
    split; [now apply handleLogin_not_latin1|].
    destruct m as [[a b c d e f g h i j] st rq al co re].
    cbn in Hout. subst a. repeat split.
Qed.

Lemma login_in_flight_shows_loader_witness :
  exists m' shown,
    handleLogin Scenario.net_identity (Scenario.login_form "alice" "secret")
    = (Return tt, m') /\
    renders m' = shown /\
    map screen shown = [FullLoader; FullLoader] /\
    screen (ui m') = DashboardGrid true true.
Proof.
  destruct (login_in_flight_shows_loader Scenario.net_identity
              (Scenario.login_form "alice" "secret"))
    as (Hsent & _).
  - repeat split; discriminate.
  - reflexivity.
  - destruct (Hsent eq_refl) as (m' & shown & E & R & _).
    exists m', shown. split; [exact E|].
    cbv in E. injection E as <-. cbn in R. subst shown. repeat split.
Defined.

(** ** Resuming from the store *)

(** X17: a reload resumes the stored session.  When the store holds a
    truthy JSON value [v], the rehydration effect logs the user in as the
    actor of [v], and the effect that follows [isLoggedIn] then fetches
    the two collections of the site of [v], filtered by the actor id of
    [v] and authorised by the token of [v], before anything else is sent;
    neither effect throws. *)
Theorem reload_resumes_session
  (net : Network) (m : Machine) (v : JSValue)
  (Hstored : storage m = Some (JSONText v)) (Hv : truthy v = true) :
  exists m' m'' rs,
    rehydrate m = (Return tt, m') /\
    isLoggedIn (ui m') = true /\
    currentUsername (ui m') = get_prop v "username" /\
    userId (ui m') = get_prop v "userId" /\
    effect_isLoggedIn net m' = (Return tt, m'') /\
    requests m'' =
      (requests m ++ [collection_request v "booking";
                      collection_request v "enquiry"] ++ rs)%list.
Proof.
  pose proof (rehydrate_record m v Hstored (truthy_not_nullish v Hv)) as E.
  assert (Hst : storage (with_ui (rehydrated v) m) = Some (JSONText v))
    by exact Hstored.
  destruct (fetchData_requests net _ v Hst Hv) as (m'' & rs & E' & R).
  exists (with_ui (rehydrated v) m), m'', rs.
  split; [exact E|].
  destruct m as [[a b c d e f g h i j] st rq al co re].
  repeat split.
  - unfold effect_isLoggedIn. cbn [ui with_ui rehydrated isLoggedIn
      Set_.isLoading Set_.isLoggedIn Set_.userId Set_.currentUsername
      Set_.siteUrl].
    rewrite E'. reflexivity.
  - exact R.
Qed.

Lemma reload_resumes_session_witness :
  exists m' m'' rs,
    rehydrate Scenario.resumed = (Return tt, m') /\
    currentUsername (ui m') = JSString "alice" /\
    effect_isLoggedIn Cases.net_dashboard m' = (Return tt, m'') /\
    requests m'' =
      ([collection_request Scenario.auth "booking";
        collection_request Scenario.auth "enquiry"] ++ rs)%list.
Proof.
  destruct (reload_resumes_session Cases.net_dashboard Scenario.resumed
              Scenario.auth eq_refl eq_refl)
    as (m' & m'' & rs & E & _ & Cu & _ & E' & R).
  exists m', m'', rs. repeat split; assumption.
Defined.

(** X18: the two loads of the store disagree on a stored value that is
    falsy without being [null].  When the store holds the JSON text of
    [0], [false] or the empty string, the rehydration effect, which tests
    the text, logs the user in with an [undefined] actor; [fetchData],
    which tests the parsed value, finds no session and returns without a
    request and without an alert; so the user stays logged in, with the
    loading flag off and whatever lists there were. *)
Theorem falsy_record_logs_in_without_data
  (net : Network) (m : Machine) (v : JSValue)
  (Hstored : storage m = Some (JSONText v))
  (Hfalsy : truthy v = false) (Hv : nullish v = false) :
  exists m',
    rehydrate m = (Return tt, m') /\
    isLoggedIn (ui m') = true /\
    currentUsername (ui m') = JSUndefined /\
    userId (ui m') = JSUndefined /\
    effect_isLoggedIn net m' = (Return tt, m') /\
    requests m' = requests m /\ alerts m' = alerts m /\
    bookings (ui m') = bookings (ui m) /\
    enquiries (ui m') = enquiries (ui m).
Proof.
  pose proof (rehydrate_record m v Hstored Hv) as E.
  exists (with_ui (rehydrated v) m). split; [exact E|].
  assert (Hprops : get_prop v "username" = JSUndefined /\
                   get_prop v "userId" = JSUndefined).
  { destruct v as [ | | b | z | s | l | ps]; try discriminate;
      try (split; reflexivity).
    cbn in Hfalsy. destruct s; [split; reflexivity | discriminate]. }
  destruct Hprops as (Hu & Hi).
  destruct m as [[a b c d e f g h i j] st rq al co re].
  cbn in Hstored. subst st.
  unfold effect_isLoggedIn, fetchData, bind, localStorage_getItem.
  cbn. rewrite Hu, Hi, Hfalsy. cbn. repeat split.
Qed.

Lemma falsy_record_logs_in_without_data_witness :
  exists m',
    rehydrate (initial_machine (Some (JSONText (JSNum 0)))) = (Return tt, m') /\
    screen (ui m') = DashboardGrid true true /\
    effect_isLoggedIn Cases.net_dashboard m' = (Return tt, m') /\
    requests m' = [].
Proof.
  destruct (falsy_record_logs_in_without_data Cases.net_dashboard
              (initial_machine (Some (JSONText (JSNum 0)))) (JSNum 0)
              eq_refl eq_refl eq_refl)
    as (m' & E & _ & _ & _ & E' & R & _).
  exists m'. split; [exact E|].
  split; [cbv in E; injection E as <-; reflexivity|].
  split; [exact E' | exact R].
Defined.

(** ** Orders with several trips *)

(** X19: a booking is named after the first entry of its order only.
    When [meta.order_trips[0]] is an object with at least one entry, the
    trip name is the [title] of the entry that [Object.keys] lists first,
    or ["Unknown Trip"] when that entry has no truthy title, even if a
    later entry has one; the other entries play no part, and no request is
    sent. *)
Theorem booking_named_after_first_entry
  (net : Network) (auth token item : JSValue) (m : Machine)
  (key : string) (entry : JSValue) (others : list (string * JSValue))
  (Hitem : nullish item = false)
  (Horder : order_trips_of item = JSObject ((key, entry) :: others)) :
  enhance net auth token false item m
  = (Return (with_trip_name item
               (or_else (opt_get entry "title") Unknown_Trip)), m) /\
  get_prop (with_trip_name item (or_else (opt_get entry "title") Unknown_Trip))
           "trip_name"
  = or_else (opt_get entry "title") Unknown_Trip.
Proof.
  split; [|apply with_trip_name_name].
  rewrite enhance_booking by assumption. rewrite Horder.
  cbn [truthy]. unfold embedded_title, Object_keys.
  cbn [own_props map fst hd_error key_name].
  unfold get_prop. cbn [own_props assoc]. rewrite String.eqb_refl.
  reflexivity.
Qed.

Lemma booking_named_after_first_entry_witness :
  enhance Cases.net_down Scenario.auth (get_prop Scenario.auth "token") false
    Cases.booking_two_trips Scenario.resumed
  = (Return (with_trip_name Cases.booking_two_trips Unknown_Trip),
     Scenario.resumed).
Proof.
  destruct (booking_named_after_first_entry Cases.net_down Scenario.auth
              (get_prop Scenario.auth "token") Cases.booking_two_trips
              Scenario.resumed "cart1" (JSObject [])
              [("cart2", JSObject [("title", JSString "Safari")])]
              eq_refl eq_refl)
    as (E & _).
  exact E.
Defined.
